(** * khmer/_version.py: version resolution (versioneer 0.14)

    A shallow embedding of [khmer/_version.py] and proofs about its
    describe-output parser, its keyword resolver and the resolver chain of
    [get_versions].

    Conventions of the embedding.
    - A Python [str] is a list of 8-bit characters ([list ascii]), as in
      Python 2, which the module supports: [\d] is [0-9], whitespace is
      [" \t\n\r\x0b\x0c"].
    - Under Python 3 the module works on decoded text and differs from
      this on unusual input: [run_command] decodes the output of the
      command and fails on bytes that are not UTF-8, [str.strip] and [\s]
      also take the separators 0x1c to 0x1f, [open] reads with universal
      newlines, and [int] refuses numerals longer than a configured limit.
      The results that depend on such input therefore ask for [portable]
      text, on which both interpreters agree, and for numerals within the
      limit.
    - A [dict] is a [gmap] keyed by the field name.
    - A raised exception is the [Raise] outcome of the [outcome] monad.
    - The [verbose] flag only guards [print] calls and is left out.
    - Process spawning, the file system, [sys.platform] and [__file__] are
      fields of an explicit environment record. *)

From Stdlib Require Import Ascii String NArith.
From Stdlib Require Import DecimalString DecimalN DecimalFacts.
From stdpp Require Import gmap strings list sorting.

Set Default Proof Using "Type".

(** ** Python strings *)

Abbreviation str := (list ascii).

(** String literals are written ["..."] and read as character lists. *)
Coercion list_ascii_of_string : string >-> list.

Module Py.

Definition newline : ascii := ascii_of_N 10.
Definition dquote : ascii := ascii_of_N 34.

(** [string.whitespace] of an 8-bit string: space, \t, \n, \x0b, \x0c, \r. *)
Definition is_space (c : ascii) : bool :=
  let n := N_of_ascii c in
  ((n =? 32) || ((9 <=? n) && (n <=? 13)))%N.

Definition is_digit (c : ascii) : bool :=
  let n := N_of_ascii c in ((48 <=? n) && (n <=? 57))%N.

(** [s.startswith(p)] *)
Fixpoint startswith (s p : str) {struct p} : bool :=
  match p, s with
  | [], _ => true
  | _ :: _, [] => false
  | c :: p', x :: s' => Ascii.eqb x c && startswith s' p'
  end.

(** [s.endswith(p)] *)
Definition endswith (s p : str) : bool := startswith (rev s) (rev p).

(** [sub in s] *)
Fixpoint contains (s sub : str) : bool :=
  startswith s sub ||
  match s with
  | [] => false
  | _ :: s' => contains s' sub
  end.

(** [s.rindex(sub)]: the highest index at which [sub] occurs in [s];
    [None] stands for the [ValueError] of a missing substring. *)
Fixpoint rindex (s sub : str) : option nat :=
  match s with
  | [] => if startswith [] sub then Some 0 else None
  | _ :: s' =>
      match rindex s' sub with
      | Some i => Some (S i)
      | None => if startswith s sub then Some 0 else None
      end
  end.

(** [s.lstrip(chars)], [s.rstrip(chars)], [s.strip(chars)] for a set of
    characters given by its membership test. *)
Fixpoint lstrip_of (chars : ascii -> bool) (s : str) : str :=
  match s with
  | c :: s' => if chars c then lstrip_of chars s' else s
  | [] => []
  end.

Definition rstrip_of (chars : ascii -> bool) (s : str) : str :=
  rev (lstrip_of chars (rev s)).

Definition strip_of (chars : ascii -> bool) (s : str) : str :=
  rstrip_of chars (lstrip_of chars s).

(** [s.strip()] *)
Definition strip (s : str) : str := strip_of is_space s.

(** [s.strip(chars)] with [chars] a string *)
Definition strip_chars (chars : str) (s : str) : str :=
  strip_of (fun c => bool_decide (c ∈ chars)) s.

(** [s.split(sep)] for a one-character separator. *)
Fixpoint split (sep : ascii) (s : str) : list str :=
  match s with
  | [] => [[]]
  | c :: s' =>
      if Ascii.eqb c sep then [] :: split sep s'
      else match split sep s' with
           | p :: ps => (c :: p) :: ps
           | [] => [[c]]
           end
  end.

(** [f.readlines()]: the lines of a text, each with its line ending. *)
Fixpoint readlines (s : str) : list str :=
  match s with
  | [] => []
  | c :: s' =>
      if Ascii.eqb c newline then [c] :: readlines s'
      else match readlines s' with
           | l :: ls => (c :: l) :: ls
           | [] => [[c]]
           end
  end.

(** Comparison of strings, as [<=] on [str]: lexicographic on the
    character codes. *)
Fixpoint str_leb (s t : str) : bool :=
  match s, t with
  | [], _ => true
  | _ :: _, [] => false
  | a :: s', b :: t' =>
      (N_of_ascii a <? N_of_ascii b)%N ||
      ((N_of_ascii a =? N_of_ascii b)%N && str_leb s' t')
  end.

Definition str_le (s t : str) : Prop := str_leb s t = true.

#[export] Instance str_le_dec : RelDecision str_le.
Proof. intros s t. unfold str_le. apply _. Defined.

(** [sorted(xs)] on a set of strings. *)
Definition sorted (xs : gset str) : list str :=
  merge_sort str_le (elements xs).

(** [int(s)] on a non-empty string of decimal digits, the only arguments
    the module passes; anything else is reported as [None]. *)
Definition int (s : str) : option N :=
  option_map N.of_uint (NilZero.uint_of_string (string_of_list_ascii s)).

(** ["%d" % n] *)
Definition format_d (n : N) : str :=
  list_ascii_of_string (NilZero.string_of_uint (N.to_uint n)).

End Py.

(** ** Exceptions *)

Inductive exn :=
| KeyError (key : string)
| ValueError.

Inductive outcome (A : Type) :=
| Return (a : A)
| Raise (e : exn).
Arguments Return {A} a.
Arguments Raise {A} e.

#[export] Instance outcome_ret : MRet outcome := @Return.
#[export] Instance outcome_bind : MBind outcome :=
  fun A B f m => match m with Return a => f a | Raise e => Raise e end.

(** [d[key]] *)
Definition getitem {V} (d : gmap string V) (key : string) : outcome V :=
  match d !! key with
  | Some v => Return v
  | None => Raise (KeyError key)
  end.

(** A library call that raises [ValueError] where the model has [None]. *)
Definition or_ValueError {A} (o : option A) : outcome A :=
  match o with
  | Some a => Return a
  | None => Raise ValueError
  end.

(** ** Regular expressions

    The patterns of the module are sequences of anchors, single characters
    of a class, and greedy repetitions of a class, captured or not. The
    matcher backtracks as [re] does: a repetition first takes the longest
    run and gives characters back one at a time until the rest matches. *)

Module Re.

Inductive atom :=
| Bol                                   (* ^ *)
| Eol                                   (* $ *)
| Chr (cls : ascii -> bool)             (* one character of a class *)
| Rep (grp : bool) (cls : ascii -> bool) (min : nat).
                                        (* cls{min,}, greedy; a group when grp *)

Definition regex := list atom.

(** A literal character. *)
Definition lit (c : ascii) : atom := Chr (Ascii.eqb c).

(** [.] without DOTALL *)
Definition dot (c : ascii) : bool := negb (Ascii.eqb c Py.newline).

(** [[0-9a-f]] *)
Definition hex (c : ascii) : bool :=
  let n := N_of_ascii c in
  (((48 <=? n) && (n <=? 57)) || ((97 <=? n) && (n <=? 102)))%N.

(** Length of the longest prefix of [s] inside the class. *)
Fixpoint run (cls : ascii -> bool) (s : str) : nat :=
  match s with
  | c :: s' => if cls c then S (run cls s') else 0
  | [] => 0
  end.

(** [$] without MULTILINE: at the end, or before a final newline. *)
Definition at_eol (s : str) : bool :=
  match s with
  | [] => true
  | [c] => Ascii.eqb c Py.newline
  | _ => false
  end.

Definition capture (grp : bool) (g : str) (gs : list str) : list str :=
  if grp then g :: gs else gs.

(** Give the repetition [n] characters, then [n-1], ... down to [min],
    until the continuation [k] matches the rest. *)
Fixpoint backoff (k : nat -> str -> option (list str)) (grp : bool)
    (pos : nat) (s : str) (min n : nat) : option (list str) :=
  match k (pos + n) (drop n s) with
  | Some gs => Some (capture grp (take n s) gs)
  | None =>
      match n with
      | 0 => None
      | S n' => if decide (min ≤ n') then backoff k grp pos s min n' else None
      end
  end.

(** Match [r] at offset [pos] of the subject, [s] being the text from
    there on; the result lists the captured groups in order. *)
Fixpoint match_here (r : regex) (pos : nat) (s : str) : option (list str) :=
  match r with
  | [] => Some []
  | Bol :: r' => if decide (pos = 0) then match_here r' pos s else None
  | Eol :: r' => if at_eol s then match_here r' pos s else None
  | Chr cls :: r' =>
      match s with
      | c :: s' => if cls c then match_here r' (S pos) s' else None
      | [] => None
      end
  | Rep grp cls min :: r' =>
      let n := run cls s in
      if decide (min ≤ n) then backoff (match_here r') grp pos s min n
      else None
  end.

Fixpoint search_from (r : regex) (pos : nat) (s : str) : option (list str) :=
  match match_here r pos s with
  | Some gs => Some gs
  | None =>
      match s with
      | [] => None
      | _ :: s' => search_from r (S pos) s'
      end
  end.

(** [re.search(r, s)]: the groups of the leftmost match, if any. *)
Definition search (r : regex) (s : str) : option (list str) :=
  search_from r 0 s.

(** [mo.group(i)] for [i >= 1]. *)
Definition group (mo : list str) (i : nat) : str :=
  default [] (mo !! (i - 1)).

End Re.

(** ** The module *)

(** The module-level constants. [git_refnames] and [git_full] are replaced
    by git during git-archive; the others are filled in by versioneer. *)
Record config := {
  git_refnames : str;
  git_full : str;
  tag_prefix : str;
  parentdir_prefix : str;
  versionfile_source : str;
}.

(** The constants as they stand in the source. *)
Definition khmer_config : config := {|
  git_refnames := "$Format:%d$";
  git_full := "$Format:%H$";
  tag_prefix := "v";
  parentdir_prefix := ".";
  versionfile_source := "khmer/_version.py";
|}.

(** What [subprocess.Popen] followed by [communicate] can do. *)
Inductive popen_result :=
| Enoent                                   (* EnvironmentError, errno ENOENT *)
| EnvironmentError                         (* any other EnvironmentError *)
| Exited (stdout : str) (returncode : Z).

Record env := {
  popen : str -> list str -> str -> popen_result;  (* program, args, cwd *)
  path_exists : str -> bool;                       (* os.path.exists *)
  platform : str;                                  (* sys.platform *)
  realpath_file : option str;
    (* os.path.realpath(__file__); None when __file__ is not defined *)
  open_read : str -> option str;
    (* the text of a file; None when open raises EnvironmentError *)
}.

(** A value stored in a result dict. *)
Inductive pyval :=
| PyNone
| PyStr (s : str).

(** Truth value of a dict. *)
Definition truthy (d : gmap string pyval) : bool := negb (bool_decide (d = ∅)).

(** Truth value of [None] or a dict. *)
Definition truthy_opt (o : option (gmap string pyval)) : bool :=
  match o with
  | Some d => truthy d
  | None => false
  end.

(** [os.path.basename], [os.path.dirname], [os.path.join] (posixpath). *)
Definition rfind_slash_plus1 (p : str) : nat :=
  match Py.rindex p "/" with
  | Some i => S i
  | None => 0
  end.

Definition basename (p : str) : str := drop (rfind_slash_plus1 p) p.

Definition dirname (p : str) : str :=
  let head := take (rfind_slash_plus1 p) p in
  if bool_decide (head ≠ []) && negb (forallb (Ascii.eqb "/") head)
  then Py.rstrip_of (Ascii.eqb "/") head
  else head.

Definition path_join (a b : str) : str :=
  if Py.startswith b "/" then b
  else if bool_decide (a = []) || Py.endswith a "/" then a ++ b
  else a ++ "/" ++ b.

(** [run_command]. The output is the 8-bit string that [communicate]
    returns, stripped; the branch [stdout = stdout.decode()] is the one of
    Python 3 and is not taken here. *)
Fixpoint run_command (e : env) (commands : list str) (args : list str)
    (cwd : str) : option str :=
  match commands with
  | [] => None
  | c :: commands' =>
      match popen e c args cwd with
      | Enoent => run_command e commands' args cwd
      | EnvironmentError => None
      | Exited stdout returncode =>
          if bool_decide (returncode ≠ 0%Z) then None
          else Some (Py.strip stdout)
      end
  end.

Definition versions_from_parentdir (parentdir_prefix root : str)
    : option (gmap string pyval) :=
  let dirname := basename root in
  if negb (Py.startswith dirname parentdir_prefix) then None
  else Some {[ "version" := PyStr (drop (length parentdir_prefix) dirname);
               "full" := PyStr [] ]}.

(** The pattern of [git_get_keywords]: an equals sign, whitespace, a double
    quote, a greedy group of characters of the line, a double quote. *)
Definition keyword_re : Re.regex :=
  [Re.lit "="; Re.Rep false Py.is_space 0; Re.lit Py.dquote;
   Re.Rep true Re.dot 0; Re.lit Py.dquote].

(** The body of the loop over the lines of the file. *)
Definition scan_line (keywords : gmap string str) (line : str)
    : gmap string str :=
  let keywords :=
    if Py.startswith (Py.strip line) "git_refnames =" then
      match Re.search keyword_re line with
      | Some mo => <["refnames" := Re.group mo 1]> keywords
      | None => keywords
      end
    else keywords in
  if Py.startswith (Py.strip line) "git_full =" then
    match Re.search keyword_re line with
    | Some mo => <["full" := Re.group mo 1]> keywords
    | None => keywords
    end
  else keywords.

Definition git_get_keywords (e : env) (versionfile_abs : str)
    : gmap string str :=
  match open_read e versionfile_abs with
  | None => ∅
  | Some text => fold_left scan_line (Py.readlines text) ∅
  end.

(** The pattern [\d]. *)
Definition digit_re : Re.regex := [Re.Chr Py.is_digit].

(** The refs listed in the expanded keyword: the entries of the
    parenthesised, comma-separated list, each stripped. *)
Definition refs_of (refnames : str) : gset str :=
  list_to_set (Py.strip <$> Py.split "," (Py.strip_chars "()" refnames)).

(** The candidate tags: the refs marked [tag: ] without the marker, or
    else the refs that contain a digit. *)
Definition tags_of (refs : gset str) : gset str :=
  let TAG : str := "tag: " in
  let tags : gset str :=
    set_map (drop (length TAG))
      (filter (fun r => Py.startswith r TAG = true) refs) in
  if decide (tags = ∅)
  then filter (fun r => is_Some (Re.search digit_re r)) refs
  else tags.

(** The loop over the sorted tags, which returns at the first one that
    starts with the prefix. *)
Fixpoint pick_ref (tag_prefix : str) (sorted_tags : list str) : option str :=
  match sorted_tags with
  | [] => None
  | ref :: rest =>
      if Py.startswith ref tag_prefix
      then Some (drop (length tag_prefix) ref)
      else pick_ref tag_prefix rest
  end.

Definition git_versions_from_keywords (keywords : gmap string str)
    (tag_prefix : str) : outcome (gmap string pyval) :=
  if decide (keywords = ∅) then Return ∅
  else
    refnames ← getitem keywords "refnames";
    let refnames := Py.strip refnames in
    if Py.startswith refnames "$Format" then Return ∅
    else
      let refs := refs_of refnames in
      let tags := tags_of refs in
      match pick_ref tag_prefix (Py.sorted tags) with
      | Some r =>
          full ← getitem keywords "full";
          Return {[ "version" := PyStr r; "full" := PyStr (Py.strip full) ]}
      | None =>
          full ← getitem keywords "full";
          Return {[ "version" := PyStr "0+unknown";
                    "full" := PyStr (Py.strip full) ]}
      end.

(** The pattern [^(.+)-(\d+)-g([0-9a-f]+)$]. *)
Definition describe_re : Re.regex :=
  [Re.Bol; Re.Rep true Re.dot 1; Re.lit "-"; Re.Rep true Py.is_digit 1;
   Re.lit "-"; Re.lit "g"; Re.Rep true Re.hex 1; Re.Eol].

(** Returns the pair of the version, [None] for Python's [None], and the
    dirty flag. *)
Definition git_parse_vcs_describe (git_describe tag_prefix : str)
    : outcome (option str * bool) :=
  let dirty := Py.endswith git_describe "-dirty" in
  git_describe ←
    (if dirty
     then i ← or_ValueError (Py.rindex git_describe "-dirty");
          Return (take i git_describe)
     else Return git_describe);
  let dirty_suffix : str := if dirty then ".dirty" else "" in
  if negb (Py.contains git_describe "-")
  then Return (Some ("0+untagged.g" ++ git_describe ++ dirty_suffix), dirty)
  else
    match Re.search describe_re git_describe with
    | None => Return (Some ("0+unparseable" ++ dirty_suffix), dirty)
    | Some mo =>
        let full_tag := Re.group mo 1 in
        if negb (Py.startswith full_tag tag_prefix) then Return (None, dirty)
        else
          let tag := drop (length tag_prefix) full_tag in
          distance ← or_ValueError (Py.int (Re.group mo 2));
          let commit := Re.group mo 3 in
          let version := tag in
          let version :=
            if negb (N.eqb distance 0) || dirty
            then version ++ ("+" ++ Py.format_d distance ++ ".g" ++ commit)
                         ++ dirty_suffix
            else version in
          Return (Some version, dirty)
    end.

Definition pyval_of (o : option str) : pyval :=
  match o with
  | Some s => PyStr s
  | None => PyNone
  end.

Definition git_versions_from_vcs (e : env) (tag_prefix root : str)
    : outcome (gmap string pyval) :=
  if negb (path_exists e (path_join root ".git")) then Return ∅
  else
    let GITS : list str :=
      if bool_decide (platform e = "win32")
      then [("git.cmd" : str); ("git.exe" : str)]
      else [("git" : str)] in
    match run_command e GITS
            [("describe" : str); ("--tags" : str); ("--dirty" : str);
             ("--always" : str); ("--long" : str)] root with
    | None => Return ∅
    | Some stdout =>
        parsed ← git_parse_vcs_describe stdout tag_prefix;
        let (version, dirty) := parsed : option str * bool in
        match run_command e GITS [("rev-parse" : str); ("HEAD" : str)] root with
        | None => Return ∅
        | Some stdout =>
            let full := Py.strip stdout in
            let full := if dirty then full ++ ".dirty" else full in
            Return {[ "version" := pyval_of version; "full" := PyStr full ]}
        end
    end.

(** [root], after one [os.path.dirname] per component of
    [versionfile_source]. *)
Definition root_of (versionfile_source path : str) : str :=
  fold_left (fun root _ => dirname root) (Py.split "/" versionfile_source) path.

(** [get_versions(default)]; the result is [None] for Python's [None]. *)
Definition get_versions (cfg : config) (e : env) (default : gmap string pyval)
    : outcome (option (gmap string pyval)) :=
  let keywords : gmap string str :=
    {[ "refnames" := git_refnames cfg; "full" := git_full cfg ]} in
  ver ← git_versions_from_keywords keywords (tag_prefix cfg);
  if truthy ver then Return (Some ver)
  else
    match realpath_file e with
    | None => Return (Some default)
    | Some path =>
        let root := root_of (versionfile_source cfg) path in
        vcs ← git_versions_from_vcs e (tag_prefix cfg) root;
        if truthy vcs then Return (Some vcs)
        else
          let pd := versions_from_parentdir (parentdir_prefix cfg) root in
          if truthy_opt pd then Return pd
          else Return (Some default)
    end.

(** ** Definitions used in the statements *)

(** Every character of [s] is in the class. *)
Definition all_in (cls : ascii → bool) (s : str) : Prop :=
  Forall (fun c => cls c = true) s.

(** The strings matched by the pattern of [git_parse_vcs_describe], with
    the text of its three groups: a non-empty tag without a line break,
    a hyphen, decimal digits, a hyphen and [g], lower-case hexadecimal
    digits, and the end of the string, before which [$] lets one final
    newline pass. *)
Definition describe_shape (s tag num commit : str) : Prop :=
  tag ≠ [] ∧ forallb Re.dot tag = true ∧
  num ≠ [] ∧ forallb Py.is_digit num = true ∧
  commit ≠ [] ∧ forallb Re.hex commit = true ∧
  (s = tag ++ "-" ++ num ++ "-g" ++ commit ∨
   s = tag ++ "-" ++ num ++ "-g" ++ commit ++ [Py.newline]).

(** The parts of the describe pattern after the tag, the number and the
    [g]. *)
Definition re_commit : Re.regex := [Re.Rep true Re.hex 1; Re.Eol].
Definition re_g : Re.regex := Re.lit "-" :: Re.lit "g" :: re_commit.
Definition re_num : Re.regex :=
  Re.lit "-" :: Re.Rep true Py.is_digit 1 :: re_g.

(** Number of hyphens of a string. *)
Definition hyphens (s : str) : nat :=
  length (filter (fun c => c = "-"%char) s).

(** The suffix the parser appends for a dirty tree. *)
Definition dirty_suffix_of (dirty : bool) : str :=
  if dirty then ".dirty" else "".

(** The parser once the marker is taken off: [git_describe] is the text
    without the marker and [dirty] tells whether there was one.
    [parse_clean] and [parse_dirty] below show that
    [git_parse_vcs_describe] is this function of the two. *)
Definition parse_stripped (git_describe : str) (dirty : bool)
    (tag_prefix : str) : outcome (option str * bool) :=
  let dirty_suffix : str := if dirty then ".dirty" else "" in
  if negb (Py.contains git_describe "-")
  then Return (Some ("0+untagged.g" ++ git_describe ++ dirty_suffix), dirty)
  else
    match Re.search describe_re git_describe with
    | None => Return (Some ("0+unparseable" ++ dirty_suffix), dirty)
    | Some mo =>
        let full_tag := Re.group mo 1 in
        if negb (Py.startswith full_tag tag_prefix) then Return (None, dirty)
        else
          let tag := drop (length tag_prefix) full_tag in
          distance ← or_ValueError (Py.int (Re.group mo 2));
          let commit := Re.group mo 3 in
          let version := tag in
          let version :=
            if negb (N.eqb distance 0) || dirty
            then version ++ ("+" ++ Py.format_d distance ++ ".g" ++ commit)
                         ++ dirty_suffix
            else version in
          Return (Some version, dirty)
    end.

(** The version built from a tag of the project. *)
Definition local_version (rest : str) (distance : N) (commit : str)
    (dirty : bool) : str :=
  if N.eqb distance 0 && negb dirty then rest
  else rest ++ "+" ++ Py.format_d distance ++ ".g" ++ commit
            ++ dirty_suffix_of dirty.

(** [s] without its last [length suf] characters. *)
Definition without_suffix (s suf : str) : str :=
  take (length s - length suf) s.

(** The keyword record [get_versions] builds from the module constants. *)
Definition keywords_of (cfg : config) : gmap string str :=
  {[ "refnames" := git_refnames cfg; "full" := git_full cfg ]}.

(** What [get_versions] does after the keyword resolver gave nothing. *)
Definition after_keywords (cfg : config) (e : env)
    (default : gmap string pyval) : outcome (option (gmap string pyval)) :=
  match realpath_file e with
  | None => Return (Some default)
  | Some path =>
      let root := root_of (versionfile_source cfg) path in
      vcs ← git_versions_from_vcs e (tag_prefix cfg) root;
      if truthy vcs then Return (Some vcs)
      else
        let pd := versions_from_parentdir (parentdir_prefix cfg) root in
        if truthy_opt pd then Return pd else Return (Some default)
  end.

(** The default of [get_versions] in the source. *)
Definition default_versions : gmap string pyval :=
  {[ "version" := PyStr "0+unknown"; "full" := PyStr "" ]}.

(** A checkout whose nearest tag is [release], one commit back. *)
Definition foreign_tag_env : env := {|
  popen := fun _ args _ =>
    if bool_decide (args = [("rev-parse" : str); ("HEAD" : str)])
    then Exited ("5f2c1d9e0a" ++ [Py.newline]) 0
    else Exited ("release-1-gabc123" ++ [Py.newline]) 0;
  path_exists := fun _ => true;
  platform := "linux2";
  realpath_file := Some ("/src/khmer/khmer/_version.py" : str);
  open_read := fun _ => None;
|}.

(** A version file in which only the [git_refnames] line is present. *)
Definition refnames_only_file : str :=
  "git_refnames = " ++ [Py.dquote] ++ " (HEAD, tag: v1.0)" ++ [Py.dquote]
    ++ [Py.newline] ++ "tag_prefix = " ++ [Py.dquote] ++ "v" ++ [Py.dquote]
    ++ [Py.newline].

Definition refnames_only_env : env := {|
  popen := fun _ _ _ => Enoent;
  path_exists := fun _ => false;
  platform := "linux2";
  realpath_file := None;
  open_read := fun _ => Some refnames_only_file;
|}.

(** The characters that are not whitespace. *)
Definition not_space (c : ascii) : bool := negb (Py.is_space c).

(** No character of [s] is whitespace. *)
Definition no_space (s : str) : bool := forallb not_space s.

(** Splits a statement on the characters of a concatenation into one for
    each part, checking the literal characters. *)
Ltac split_chars :=
  repeat first
    [ apply Forall_nil_2
    | apply Forall_cons_2; [reflexivity|]
    | apply Forall_app_2 ].

(** ** Definitions used in the further results *)

(** Portable text: printable ASCII, tabs and newlines. On such text the
    operations of the module give the same result under Python 2 and
    Python 3: it decodes to itself, [strip] and [\s] see the same
    whitespace, and a line ends at a newline only. *)
Definition portable_char (c : ascii) : bool :=
  let n := N_of_ascii c in
  (((32 <=? n) && (n <=? 126)) || (n =? 9) || (n =? 10))%N.

Definition portable (s : str) : bool := forallb portable_char s.

(** [sys.int_info.str_digits_check_threshold]: whatever limit on the
    length of numerals is configured, [int] and [%d] accept a numeral of
    at most this many digits (CPython 3.11 and later; before, there is no
    limit). *)
Definition str_digits_check_threshold : nat := 640.

(** Nothing to strip on the left: the string is empty or starts outside
    the set. *)
Definition lclean (chars : ascii → bool) (s : str) : Prop :=
  match s with
  | [] => True
  | c :: _ => chars c = false
  end.

(** [sep.join(l)] *)
Fixpoint join (sep : str) (l : list str) : str :=
  match l with
  | [] => []
  | [x] => x
  | x :: l' => x ++ sep ++ join sep l'
  end.

(** A path to which a component can be appended with a slash: not empty
    and not ending with a slash. *)
Definition open_path (p : str) : Prop :=
  p ≠ [] ∧ Py.endswith p "/" = false.

(** The components of a relative path: there is one at least, and each is
    a non-empty name without slash. *)
Definition path_components (comps : list str) : Prop :=
  comps ≠ [] ∧ Forall (fun c => c ≠ [] ∧ "/"%char ∉ c) comps.

(** The describe line without its [-dirty] marker, if it has one. *)
Definition describe_body (s : str) : str :=
  if Py.endswith s "-dirty" then without_suffix s "-dirty" else s.

(** The [refnames] git writes for a list of refs: a space, then the refs
    in parentheses, separated by a comma and a space. *)
Definition refnames_of (l : list str) : str :=
  " (" ++ join ", " l ++ ")".

(** A ref name that the list syntax leaves alone: it holds no comma and
    no parenthesis. *)
Definition plain_ref (ref : str) : Prop :=
  Forall (fun c => c ∉ (",()" : str)) ref.

(** The candidate executables of [git_versions_from_vcs], and the
    arguments of its two commands. *)
Definition gits_of (platform : str) : list str :=
  if bool_decide (platform = "win32")
  then [("git.cmd" : str); ("git.exe" : str)]
  else [("git" : str)].

Definition describe_args : list str :=
  [("describe" : str); ("--tags" : str); ("--dirty" : str);
   ("--always" : str); ("--long" : str)].

Definition rev_parse_args : list str := [("rev-parse" : str); ("HEAD" : str)].

(** A checkout fourteen commits after the tag [v1.2], with local
    changes. *)
Definition dirty_tree_env : env := {|
  popen := fun _ args _ =>
    if bool_decide (args = rev_parse_args)
    then Exited ("2414721b194453f058079d897d13c4e377f92dc6" ++ [Py.newline]) 0
    else Exited ("v1.2-14-g2414721-dirty" ++ [Py.newline]) 0;
  path_exists := fun _ => true;
  platform := "linux2";
  realpath_file := Some ("/src/khmer/khmer/_version.py" : str);
  open_read := fun _ => None;
|}.

(** The same checkout on a machine where only [git] can be run. *)
Definition git_only_env : env := {|
  popen := fun c args cwd =>
    if bool_decide (c = "git") then popen dirty_tree_env c args cwd
    else EnvironmentError;
  path_exists := fun _ => true;
  platform := "linux2";
  realpath_file := None;
  open_read := fun _ => None;
|}.

(** The lines of the version file that hold the two keywords. *)
Definition refnames_line (refnames : str) : str :=
  "git_refnames = " ++ [Py.dquote] ++ refnames ++ [Py.dquote; Py.newline].

Definition full_line (full : str) : str :=
  "git_full = " ++ [Py.dquote] ++ full ++ [Py.dquote; Py.newline].

(** A line of a text: it ends with a newline and has no other. *)
Definition is_line (l : str) : Prop :=
  ∃ t, l = t ++ [Py.newline] ∧ Py.newline ∉ t.

(** A line that sets neither keyword. *)
Definition other_line (l : str) : Prop :=
  is_line l ∧
  Py.startswith (Py.strip l) "git_refnames =" = false ∧
  Py.startswith (Py.strip l) "git_full =" = false.

(** A version file as versioneer writes it, before git-archive fills the
    keywords in. *)
Definition version_file_env : env := {|
  popen := fun _ _ _ => Enoent;
  path_exists := fun _ => false;
  platform := "linux2";
  realpath_file := None;
  open_read := fun _ =>
    Some (concat [ "import re" ++ [Py.newline];
                   refnames_line "$Format:%d$";
                   full_line "$Format:%H$";
                   "tag_prefix = " ++ [Py.dquote] ++ "v" ++ [Py.dquote]
                     ++ [Py.newline] ]);
|}.

(** ** The embedding on examples *)

Example startswith_ex : Py.startswith "v1.0" "v" = true.
Proof. reflexivity. Qed.
Example rindex_ex : Py.rindex "a-dirty-dirty" "-dirty" = Some 7.
Proof. reflexivity. Qed.
Example split_ex : Py.split "," "a,,b" = [("a" : str); ("" : str); ("b" : str)].
Proof. reflexivity. Qed.
Example strip_ex : Py.strip "  a b  " = "a b".
Proof. reflexivity. Qed.
Example sorted_ex :
  Py.sorted (list_to_set [("2.0rc1" : str); ("10.0" : str); ("2.0" : str)])
  = [("10.0" : str); ("2.0" : str); ("2.0rc1" : str)].
Proof. vm_compute. reflexivity. Qed.
Example int_ex : Py.int "007" = Some 7%N.
Proof. reflexivity. Qed.
Example format_ex : Py.format_d 120 = "120".
Proof. reflexivity. Qed.
Example readlines_ex :
  Py.readlines (String "a" (String Py.newline "b")) =
  [[("a")%char; Py.newline]; ("b" : str)].
Proof. reflexivity. Qed.

Example describe_ex1 :
  git_parse_vcs_describe "v1.0-3-gabc12f" "v"
  = Return (Some ("1.0+3.gabc12f" : str), false).
Proof. vm_compute. reflexivity. Qed.
Example describe_ex2 :
  git_parse_vcs_describe "v1.0-rc-1-0-gabc12f-dirty" "v"
  = Return (Some ("1.0-rc-1+0.gabc12f.dirty" : str), true).
Proof. vm_compute. reflexivity. Qed.
Example describe_ex3 :
  git_parse_vcs_describe "v1.0-0-gabc12f" "v"
  = Return (Some ("1.0" : str), false).
Proof. vm_compute. reflexivity. Qed.
Example keywords_ex1 :
  git_versions_from_keywords
    {[ "refnames" := (" (HEAD, v1.2, master)" : str);
       "full" := ("abc " : str) ]} "v"
  = Return {[ "version" := PyStr "1.2"; "full" := PyStr "abc" ]}.
Proof. vm_compute. reflexivity. Qed.

(** ** Facts about the string primitives *)

Section string_facts.
Implicit Types s p t r : str.
Implicit Types c : ascii.

Lemma startswith_iff s p : Py.startswith s p = true ↔ ∃ r, s = p ++ r.
Proof.
  revert s. induction p as [|c p IH]; intros s; simpl.
  - split; [intros _; by exists s|done].
  - destruct s as [|x s].
    + split; [done|]. by intros [r ?].
    + rewrite andb_true_iff, Ascii.eqb_eq, IH. split.
      * intros [-> [r ->]]. by exists r.
      * intros [r [= -> ->]]. eauto.
Qed.

Lemma startswith_app p r : Py.startswith (p ++ r) p = true.
Proof. apply startswith_iff. eauto. Qed.

Lemma startswith_drop s p :
  Py.startswith s p = true → s = p ++ drop (length p) s.
Proof.
  intros [r ->]%startswith_iff. by rewrite drop_app_length.
Qed.

Lemma endswith_iff s p : Py.endswith s p = true ↔ ∃ r, s = r ++ p.
Proof.
  unfold Py.endswith. rewrite startswith_iff. split.
  - intros [r Hr]. exists (rev r).
    rewrite <- (rev_involutive s), Hr, rev_app_distr.
    by rewrite rev_involutive.
  - intros [r ->]. exists (rev r). by rewrite rev_app_distr.
Qed.

Lemma endswith_app r p : Py.endswith (r ++ p) p = true.
Proof. apply endswith_iff. eauto. Qed.

(** A string cannot end with [p] when its last character is not that
    of [p]. *)
Lemma endswith_last s c p d :
  c ≠ d → Py.endswith (s ++ [c]) (p ++ [d]) = false.
Proof.
  intros Hne. apply not_true_is_false. intros [r Hr]%endswith_iff.
  rewrite app_assoc in Hr. by apply app_inj_tail in Hr as [_ ?].
Qed.

Lemma contains_char s c : Py.contains s [c] = true ↔ c ∈ s.
Proof.
  induction s as [|x s IH]; simpl.
  - split; [done|]. by intros ?%elem_of_nil.
  - rewrite orb_true_iff, IH, andb_true_r, Ascii.eqb_eq, elem_of_cons.
    split; (intros [?|?]; [by left|by right]).
Qed.

Lemma contains_char_false s c : Py.contains s [c] = false ↔ c ∉ s.
Proof.
  rewrite <- contains_char. by destruct (Py.contains s [c]).
Qed.

Lemma rindex_short s p : length s < length p → Py.rindex s p = None.
Proof.
  induction s as [|x s IH]; intros Hlen.
  - destruct p; [simpl in Hlen; lia|done].
  - simpl in *. rewrite IH by lia.
    destruct (Py.startswith (x :: s) p) eqn:E; [|done].
    apply startswith_iff in E as [r E].
    apply (f_equal length) in E. rewrite length_app in E. simpl in E. lia.
Qed.

(** The last occurrence of a non-empty suffix is the suffix itself. *)
Lemma rindex_suffix s p : p ≠ [] → Py.rindex (s ++ p) p = Some (length s).
Proof.
  intros Hp. induction s as [|x s IH]; simpl.
  - destruct p as [|c p]; [done|]. simpl.
    rewrite rindex_short by (simpl; lia).
    assert (Py.startswith p p = true) as ->
      by (apply startswith_iff; exists []; by rewrite app_nil_r).
    by rewrite Ascii.eqb_refl.
  - by rewrite IH.
Qed.

Lemma lstrip_of_Forall (P : ascii → Prop) chars s :
  Forall P s → Forall P (Py.lstrip_of chars s).
Proof.
  induction 1 as [|x s Hx Hs IH]; simpl; [done|].
  destruct (chars x); by try constructor.
Qed.

Lemma strip_of_Forall (P : ascii → Prop) chars s :
  Forall P s → Forall P (Py.strip_of chars s).
Proof.
  intros Hs. unfold Py.strip_of, Py.rstrip_of.
  by apply Forall_rev, lstrip_of_Forall, Forall_rev, lstrip_of_Forall.
Qed.

Lemma split_Forall (P : ascii → Prop) sep s :
  Forall P s → Forall (Forall P) (Py.split sep s).
Proof.
  induction 1 as [|x s Hx Hs IH]; simpl; [by repeat constructor|].
  destruct (Ascii.eqb x sep); [by constructor|].
  destruct (Py.split sep s) as [|q qs]; [by repeat constructor|].
  inversion IH; subst. by repeat constructor.
Qed.

End string_facts.

(** ** Facts about the matcher *)

Section regex_facts.
Implicit Types s t u : str.
Implicit Types cls : ascii → bool.

Lemma all_in_forallb cls s : forallb cls s = true ↔ all_in cls s.
Proof. unfold all_in. rewrite forallb_forall, Forall_forall.
  split; intros H x Hx; apply H; by apply list_elem_of_In. Qed.

Lemma run_le cls s : Re.run cls s ≤ length s.
Proof. induction s as [|c s IH]; simpl; [lia|]. destruct (cls c); simpl; lia. Qed.

Lemma run_take cls s j : j ≤ Re.run cls s → all_in cls (take j s).
Proof.
  revert j. induction s as [|c s IH]; intros j Hj; simpl in *.
  - rewrite take_nil. constructor.
  - destruct j as [|j]; [constructor|]. simpl.
    destruct (cls c) eqn:E; [|lia]. constructor; [done|]. apply IH. lia.
Qed.

Lemma run_app cls t u : all_in cls t → length t ≤ Re.run cls (t ++ u).
Proof.
  induction 1 as [|c t Hc Ht IH]; simpl; [lia|]. rewrite Hc. lia.
Qed.

Lemma run_stop cls t u :
  all_in cls t → Re.run cls u = 0 → Re.run cls (t ++ u) = length t.
Proof.
  intros Ht Hu. induction Ht as [|c t Hc Ht IH]; simpl; [done|].
  by rewrite Hc, IH.
Qed.

Lemma backoff_Some k grp pos s min n r :
  Re.backoff k grp pos s min n = Some r →
  ∃ j gs, j ≤ n ∧ (min ≤ j ∨ j = n) ∧
          k (pos + j) (drop j s) = Some gs ∧
          r = Re.capture grp (take j s) gs.
Proof.
  induction n as [|n IH]; simpl.
  - destruct (k (pos + 0) (drop 0 s)) as [gs|] eqn:E; [|done].
    intros [= <-]. exists 0, gs. auto.
  - destruct (k (pos + S n) (drop (S n) s)) as [gs|] eqn:E.
    + intros [= <-]. exists (S n), gs. auto.
    + case_decide; [|done]. intros (j & gs & ? & ? & ? & ?)%IH.
      exists j, gs. repeat split; auto. lia.
Qed.

(** The repetition keeps the most characters for which the rest
    matches. *)
Lemma backoff_first k grp pos s min n j gs :
  min ≤ j ≤ n →
  k (pos + j) (drop j s) = Some gs →
  (∀ j', j < j' ≤ n → k (pos + j') (drop j' s) = None) →
  Re.backoff k grp pos s min n = Some (Re.capture grp (take j s) gs).
Proof.
  intros Hj Hk. induction n as [|n IH]; intros Hlater; simpl.
  - assert (j = 0) as -> by lia. by rewrite Hk.
  - destruct (decide (j = S n)) as [->|Hne].
    + by rewrite Hk.
    + rewrite Hlater by lia. rewrite decide_True by lia.
      apply IH; [lia|]. intros j' ?. apply Hlater. lia.
Qed.

Lemma search_from_Bol r pos s :
  pos ≠ 0 → Re.search_from (Re.Bol :: r) pos s = None.
Proof.
  revert pos. induction s as [|c s IH]; intros pos Hpos; simpl;
    rewrite decide_False by done; [done|]. by apply IH.
Qed.

(** A pattern anchored by [^] can only match at the start. *)
Lemma search_Bol r s :
  Re.search (Re.Bol :: r) s = Re.match_here r 0 s.
Proof.
  unfold Re.search. destruct s as [|c s]; simpl.
  - by destruct (Re.match_here r 0 []).
  - destruct (Re.match_here r 0 (c :: s)); [done|].
    by apply search_from_Bol.
Qed.

End regex_facts.

(** ** The describe pattern *)

Section describe_pattern.
Implicit Types s t u tag num commit : str.

Lemma hyphens_app s t : hyphens (s ++ t) = hyphens s + hyphens t.
Proof. unfold hyphens. by rewrite list.filter_app, length_app. Qed.

Lemma hyphens_drop s i : hyphens (drop i s) ≤ hyphens s.
Proof. rewrite <- (take_drop i s) at 2. rewrite hyphens_app. lia. Qed.

Lemma hyphens_all_in cls s :
  cls "-"%char = false → all_in cls s → hyphens s = 0.
Proof.
  intros Hcls. induction 1 as [|c s Hc Hs IH]; [done|].
  unfold hyphens in *. rewrite filter_cons_False; [done|].
  intros ->. congruence.
Qed.

Lemma hyphens_cons_hyphen s : hyphens ("-"%char :: s) = S (hyphens s).
Proof. unfold hyphens. by rewrite filter_cons_True. Qed.

Lemma hyphens_cons_other c s : c ≠ "-"%char → hyphens (c :: s) = hyphens s.
Proof. intros. unfold hyphens. by rewrite filter_cons_False. Qed.

(** What follows the first hyphen of a match has one more hyphen. *)
Lemma hyphens_after num commit e :
  all_in Py.is_digit num → all_in Re.hex commit →
  e = [] ∨ e = [Py.newline] →
  hyphens (num ++ "-g" ++ commit ++ e) = 1.
Proof.
  intros Hnum Hcommit He. rewrite hyphens_app.
  rewrite (hyphens_all_in Py.is_digit) by done.
  cbn [list_ascii_of_string app].
  rewrite hyphens_cons_hyphen, hyphens_cons_other by done.
  rewrite hyphens_app, (hyphens_all_in Re.hex) by done.
  by destruct He as [-> | ->].
Qed.

Lemma hyphens_tail num commit e :
  all_in Py.is_digit num → all_in Re.hex commit →
  e = [] ∨ e = [Py.newline] →
  hyphens ("-" ++ num ++ "-g" ++ commit ++ e) = 2.
Proof.
  intros. cbn [list_ascii_of_string app].
  rewrite hyphens_cons_hyphen. f_equal. by apply hyphens_after.
Qed.

Lemma at_eol_iff s : Re.at_eol s = true ↔ s = [] ∨ s = [Py.newline].
Proof.
  destruct s as [|c [|d s]]; simpl.
  - split; auto.
  - rewrite Ascii.eqb_eq. split; [intros ->; auto|]. by intros [|[=]].
  - split; [done|]. by intros [|].
Qed.

Lemma take_nonempty s j : 1 ≤ j → j ≤ length s → take j s ≠ [].
Proof.
  intros ? ? E. apply (f_equal length) in E.
  rewrite length_take in E. simpl in E. lia.
Qed.

Lemma nonempty_length s : s ≠ [] → 1 ≤ length s.
Proof. destruct s; simpl; [done|lia]. Qed.

Lemma commit_sound pos t gs :
  Re.match_here re_commit pos t = Some gs →
  ∃ commit e, gs = [commit] ∧ t = commit ++ e ∧ commit ≠ [] ∧
              all_in Re.hex commit ∧ (e = [] ∨ e = [Py.newline]).
Proof.
  simpl. case_decide as Hmin; [|done].
  intros (j & gs' & Hj & Hj' & Hk & ->)%backoff_Some. simpl in Hk.
  destruct (Re.at_eol (drop j t)) eqn:E; [|done]. injection Hk as <-.
  exists (take j t), (drop j t). split_and!.
  - done.
  - by rewrite take_drop.
  - apply take_nonempty; [lia|]. pose proof (run_le Re.hex t). lia.
  - by apply run_take.
  - by apply at_eol_iff.
Qed.

Lemma commit_complete pos commit e :
  commit ≠ [] → all_in Re.hex commit → e = [] ∨ e = [Py.newline] →
  Re.match_here re_commit pos (commit ++ e) = Some [commit].
Proof.
  intros Hne Hall He. simpl.
  assert (Re.run Re.hex (commit ++ e) = length commit) as ->.
  { apply run_stop; [done|]. by destruct He as [-> | ->]. }
  apply nonempty_length in Hne. rewrite decide_True by done.
  rewrite (backoff_first _ _ _ _ _ _ (length commit) []).
  - by rewrite take_app_length.
  - lia.
  - rewrite drop_app_length. simpl.
    by apply at_eol_iff in He as ->.
  - intros; lia.
Qed.

Lemma num_sound pos t gs :
  Re.match_here re_num pos t = Some gs →
  ∃ num commit e,
    gs = [num; commit] ∧ t = "-" ++ num ++ "-g" ++ commit ++ e ∧
    num ≠ [] ∧ all_in Py.is_digit num ∧
    commit ≠ [] ∧ all_in Re.hex commit ∧ (e = [] ∨ e = [Py.newline]).
Proof.
  destruct t as [|c t]; [done|].
  cbn [re_num Re.match_here Re.lit].
  destruct (Ascii.eqb "-" c) eqn:Ec; [|done]. apply Ascii.eqb_eq in Ec as <-.
  case_decide as Hmin; [|done].
  intros (j & gs' & Hj & Hj' & Hk & ->)%backoff_Some.
  destruct (drop j t) as [|c1 [|c2 t3]] eqn:Et; try done.
  { cbn [re_g Re.match_here Re.lit] in Hk. by destruct (Ascii.eqb "-" c1). }
  cbn [re_g Re.match_here Re.lit] in Hk.
  destruct (Ascii.eqb "-" c1) eqn:E1; [|done]. apply Ascii.eqb_eq in E1 as <-.
  destruct (Ascii.eqb "g" c2) eqn:E2; [|done]. apply Ascii.eqb_eq in E2 as <-.
  apply commit_sound in Hk as (commit & e & -> & -> & ? & ? & ?).
  exists (take j t), commit, e. split_and!; try done.
  - simpl. f_equal. rewrite <- (take_drop j t) at 1. by rewrite Et.
  - apply take_nonempty; [lia|]. pose proof (run_le Py.is_digit t). lia.
  - by apply run_take.
Qed.

Lemma num_complete pos num commit e :
  num ≠ [] → all_in Py.is_digit num →
  commit ≠ [] → all_in Re.hex commit → e = [] ∨ e = [Py.newline] →
  Re.match_here re_num pos ("-" ++ num ++ "-g" ++ commit ++ e)
  = Some [num; commit].
Proof.
  intros Hne Hnum Hc Hcommit He.
  cbn [re_num Re.match_here Re.lit list_ascii_of_string app].
  rewrite Ascii.eqb_refl.
  assert (Re.run Py.is_digit (num ++ "-"%char :: "g"%char :: commit ++ e)
          = length num) as -> by by apply run_stop.
  apply nonempty_length in Hne. rewrite decide_True by done.
  rewrite (backoff_first _ _ _ _ _ _ (length num) [commit]).
  - by rewrite take_app_length.
  - lia.
  - rewrite drop_app_length. cbn [re_g Re.match_here Re.lit].
    rewrite !Ascii.eqb_refl. by apply commit_complete.
  - intros; lia.
Qed.

(** A match of the whole pattern splits the string as the shape says. *)
Lemma describe_re_sound s gs :
  Re.search describe_re s = Some gs →
  ∃ tag num commit, gs = [tag; num; commit] ∧ describe_shape s tag num commit.
Proof.
  unfold describe_re. rewrite search_Bol. intros Hm.
  change (Re.match_here (Re.Rep true Re.dot 1 :: re_num) 0 s = Some gs) in Hm.
  cbn [Re.match_here] in Hm. case_decide as Hmin; [|done].
  apply backoff_Some in Hm as (j & gs' & Hj & Hj' & Hk & ->).
  apply num_sound in Hk as (num & commit & e & -> & Et & ? & ? & ? & ? & He).
  exists (take j s), num, commit. split; [done|].
  unfold describe_shape. rewrite !all_in_forallb. split_and!; try done.
  - apply take_nonempty; [lia|]. pose proof (run_le Re.dot s). lia.
  - by apply run_take.
  - rewrite <- (take_drop j s) at 1 3. rewrite Et.
    destruct He as [-> | ->]; [left|right]; by rewrite ?app_nil_r.
Qed.

(** A string of the shape is matched, with the groups of the shape:
    no longer tag is possible, since what follows the tag has only two
    hyphens. *)
Lemma describe_re_complete s tag num commit :
  describe_shape s tag num commit →
  Re.search describe_re s = Some [tag; num; commit].
Proof.
  unfold describe_shape. rewrite !all_in_forallb.
  intros (Htag & Hdot & Hnum & Hdigits & Hcommit & Hhex & Hs).
  assert (∃ e, (e = [] ∨ e = [Py.newline]) ∧
               s = tag ++ "-" ++ num ++ "-g" ++ commit ++ e) as (e & He & ->).
  { destruct Hs as [-> | ->]; [exists []|exists [Py.newline]];
      rewrite ?app_nil_r; auto. }
  unfold describe_re. rewrite search_Bol.
  change (Re.match_here (Re.Rep true Re.dot 1 :: re_num) 0
            (tag ++ "-" ++ num ++ "-g" ++ commit ++ e) = Some [tag; num; commit]).
  cbn [Re.match_here].
  set (t := ("-" : str) ++ num ++ "-g" ++ commit ++ e).
  pose proof (run_app Re.dot tag t Hdot) as Hrun.
  apply nonempty_length in Htag. rewrite decide_True by lia.
  rewrite (backoff_first _ _ _ _ _ _ (length tag) [num; commit]).
  - by rewrite take_app_length.
  - lia.
  - rewrite drop_app_length. by apply num_complete.
  - intros j' [Hlt Hle].
    destruct (Re.match_here re_num (0 + j') (drop j' (tag ++ t))) as [gs|] eqn:E;
      [exfalso|done].
    apply num_sound in E as (num' & commit' & e' & _ & Et & _ & Hd' & _ & Hh' & He').
    apply (f_equal hyphens) in Et.
    replace j' with (length tag + S (j' - S (length tag))) in Et by lia.
    rewrite <- drop_drop, drop_app_length in Et.
    rewrite (hyphens_tail num' commit' e') in Et by done.
    assert (drop (S (j' - S (length tag))) t
            = drop (j' - S (length tag)) (num ++ "-g" ++ commit ++ e)) as Hd
      by reflexivity.
    rewrite Hd in Et.
    pose proof (hyphens_drop (num ++ "-g" ++ commit ++ e)
                  (j' - S (length tag))) as Hdrop.
    rewrite (hyphens_after num commit e) in Hdrop by done. lia.
Qed.

End describe_pattern.

(** ** Decimal numerals *)

Section numerals.
Implicit Types s num : str.

Lemma uint_of_char_digit c d :
  Py.is_digit c = true → ∃ d', uint_of_char c (Some d) = Some d'.
Proof.
  destruct c as [[] [] [] [] [] [] [] []]; try discriminate; intros _;
    eexists; reflexivity.
Qed.

Lemma uint_of_string_digits num :
  all_in Py.is_digit num →
  ∃ d, NilEmpty.uint_of_string (string_of_list_ascii num) = Some d.
Proof.
  induction 1 as [|c num Hc Hnum [d IH]]; simpl; [by eexists|].
  rewrite IH. by apply uint_of_char_digit.
Qed.

(** [int] is defined on every non-empty string of digits. *)
Lemma int_digits num :
  num ≠ [] → all_in Py.is_digit num → ∃ n, Py.int num = Some n.
Proof.
  intros Hne [d Hd]%uint_of_string_digits. exists (N.of_uint d).
  unfold Py.int, NilZero.uint_of_string.
  destruct num as [|c num]; [done|]. simpl in *. by rewrite Hd.
Qed.

Lemma uint_of_char_nonzero c d d' :
  c ≠ "0"%char → uint_of_char c (Some d) = Some d' →
  Decimal.unorm d' = d'.
Proof.
  intros Hc.
  destruct c as [[] [] [] [] [] [] [] []]; try discriminate; try done;
    by intros [= <-].
Qed.

(** A numeral without a leading zero is printed back as it was read. *)
Lemma format_d_int num n :
  num = "0" ∨ Py.startswith num "0" = false →
  Py.int num = Some n → Py.format_d n = num.
Proof.
  intros Hcanon Hint. unfold Py.int in Hint.
  destruct (NilZero.uint_of_string (string_of_list_ascii num)) as [d|] eqn:Hd;
    [|done].
  injection Hint as <-. unfold Py.format_d.
  rewrite DecimalN.Unsigned.to_of.
  assert (Decimal.unorm d = d) as ->.
  { destruct Hcanon as [-> | Hz].
    - vm_compute in Hd. by injection Hd as <-.
    - destruct num as [|c num]; [done|]. simpl in Hz, Hd.
      rewrite andb_true_r in Hz. apply Ascii.eqb_neq in Hz.
      destruct (NilEmpty.uint_of_string (string_of_list_ascii num)) as [d0|];
        [|by destruct c as [[] [] [] [] [] [] [] []]].
      by eapply uint_of_char_nonzero. }
  apply NilZero.sus in Hd. rewrite Hd.
  apply list_ascii_of_string_of_list_ascii.
Qed.

Lemma string_of_uint_digits d :
  all_in Py.is_digit (list_ascii_of_string (NilEmpty.string_of_uint d)).
Proof. induction d; simpl; by constructor. Qed.

(** A printed number consists of digits. *)
Lemma format_d_digits n : all_in Py.is_digit (Py.format_d n).
Proof.
  unfold Py.format_d, NilZero.string_of_uint.
  destruct (N.to_uint n); try apply string_of_uint_digits.
  by repeat constructor.
Qed.

End numerals.

(** ** [git_parse_vcs_describe] *)

Section describe_parser.
Implicit Types s tag rest num commit tag_prefix : str.
Implicit Types dirty : bool.

Lemma parse_clean s tag_prefix :
  Py.endswith s "-dirty" = false →
  git_parse_vcs_describe s tag_prefix = parse_stripped s false tag_prefix.
Proof. intros Hclean. unfold git_parse_vcs_describe. by rewrite Hclean. Qed.

Lemma parse_dirty s tag_prefix :
  git_parse_vcs_describe (s ++ "-dirty") tag_prefix
  = parse_stripped s true tag_prefix.
Proof.
  unfold git_parse_vcs_describe.
  rewrite endswith_app, rindex_suffix by done.
  cbn [or_ValueError mbind outcome_bind]. by rewrite take_app_length.
Qed.

(** The marker is the last six characters of an input that ends with
    it. *)
Lemma endswith_marker s :
  Py.endswith s "-dirty" = true →
  s = take (length s - 6) s ++ "-dirty".
Proof.
  intros [r ->]%endswith_iff. rewrite length_app.
  replace (length r + length ("-dirty" : str) - 6) with (length r)
    by (simpl; lia).
  by rewrite take_app_length.
Qed.

Lemma shape_hyphen s tag num commit :
  describe_shape s tag num commit → "-"%char ∈ s.
Proof.
  intros (_ & _ & _ & _ & _ & _ & [-> | ->]);
    apply elem_of_app; right; by left.
Qed.

Lemma stripped_untagged s dirty tag_prefix :
  "-"%char ∉ s →
  parse_stripped s dirty tag_prefix
  = Return (Some ("0+untagged.g" ++ s ++ dirty_suffix_of dirty), dirty).
Proof.
  intros Hs%contains_char_false. unfold parse_stripped.
  change (Py.contains s "-") with (Py.contains s ["-"%char]).
  by rewrite Hs.
Qed.

Lemma stripped_unparseable s dirty tag_prefix :
  "-"%char ∈ s →
  (∀ tag num commit, ¬ describe_shape s tag num commit) →
  parse_stripped s dirty tag_prefix
  = Return (Some ("0+unparseable" ++ dirty_suffix_of dirty), dirty).
Proof.
  intros Hs%contains_char Hno. unfold parse_stripped.
  change (Py.contains s "-") with (Py.contains s ["-"%char]).
  rewrite Hs. cbn [negb].
  destruct (Re.search describe_re s) as [gs|] eqn:E; [|done].
  apply describe_re_sound in E as (tag & num & commit & _ & Hshape).
  by apply Hno in Hshape.
Qed.

(** A tag that does not start with the prefix gives no version. *)
Lemma stripped_foreign s tag num commit dirty tag_prefix :
  describe_shape s tag num commit →
  Py.startswith tag tag_prefix = false →
  parse_stripped s dirty tag_prefix = Return (None, dirty).
Proof.
  intros Hshape Hpre. unfold parse_stripped.
  pose proof (shape_hyphen _ _ _ _ Hshape) as Hs%contains_char.
  change (Py.contains s "-") with (Py.contains s ["-"%char]).
  rewrite Hs, (describe_re_complete _ _ _ _ Hshape). cbn [negb].
  change (Re.group [tag; num; commit] 1) with tag. by rewrite Hpre.
Qed.

Lemma stripped_tagged s rest num commit dirty tag_prefix :
  describe_shape s (tag_prefix ++ rest) num commit →
  ∃ distance,
    Py.int num = Some distance ∧
    parse_stripped s dirty tag_prefix
    = Return (Some (local_version rest distance commit dirty), dirty).
Proof.
  intros Hshape.
  destruct (int_digits num) as [n Hn].
  { apply Hshape. } { apply all_in_forallb, Hshape. }
  exists n. split; [done|]. unfold parse_stripped.
  pose proof (shape_hyphen _ _ _ _ Hshape) as Hs%contains_char.
  change (Py.contains s "-") with (Py.contains s ["-"%char]).
  rewrite Hs, (describe_re_complete _ _ _ _ Hshape). cbn [negb].
  change (Re.group [tag_prefix ++ rest; num; commit] 1) with (tag_prefix ++ rest).
  change (Re.group [tag_prefix ++ rest; num; commit] 2) with num.
  change (Re.group [tag_prefix ++ rest; num; commit] 3) with commit.
  rewrite startswith_app, drop_app_length, Hn.
  cbn [negb or_ValueError mbind outcome_bind].
  unfold local_version, dirty_suffix_of.
  destruct (N.eqb n 0), dirty; cbn [negb orb andb]; try done.
  all: by rewrite <- ?app_assoc.
Qed.

(** The four results of the parser. *)
Lemma stripped_cases s dirty tag_prefix :
(("-"%char ∉ s) ∧
   parse_stripped s dirty tag_prefix
   = Return (Some ("0+untagged.g" ++ s ++ dirty_suffix_of dirty), dirty)) ∨
  (parse_stripped s dirty tag_prefix
   = Return (Some ("0+unparseable" ++ dirty_suffix_of dirty), dirty)) ∨
  (parse_stripped s dirty tag_prefix = Return (None, dirty)) ∨
  (∃ rest num commit distance,
     describe_shape s (tag_prefix ++ rest) num commit ∧
     parse_stripped s dirty tag_prefix
     = Return (Some (local_version rest distance commit dirty), dirty)).
Proof.
  destruct (decide ("-"%char ∈ s)) as [Hin|Hnotin];
    [|left; split; [done|by apply stripped_untagged]].
  right.
  destruct (Re.search describe_re s) as [gs|] eqn:E.
  - apply describe_re_sound in E as (tag & num & commit & _ & Hshape).
    right. destruct (Py.startswith tag tag_prefix) eqn:Hpre.
    + right. apply startswith_drop in Hpre. rewrite Hpre in Hshape.
      destruct (stripped_tagged _ _ _ _ dirty _ Hshape) as (n & _ & Hn).
      by exists (drop (length tag_prefix) tag), num, commit, n.
    + left. by eapply stripped_foreign.
  - left. apply stripped_unparseable; [done|].
    intros tag num commit Hshape%describe_re_complete. congruence.
Qed.

End describe_parser.

(** ** Results on the describe parser *)

Section describe_results.
Implicit Types s tag rest num commit tag_prefix : str.

(** An input [TAG-N-gHEX] has the shape of the pattern and no marker. *)
Lemma tagged_input tag num commit :
  tag ≠ [] → forallb Re.dot tag = true →
  num ≠ [] → forallb Py.is_digit num = true →
  commit ≠ [] → forallb Re.hex commit = true →
  describe_shape (tag ++ "-" ++ num ++ "-g" ++ commit) tag num commit ∧
  Py.endswith (tag ++ "-" ++ num ++ "-g" ++ commit) "-dirty" = false.
Proof.
  intros ? ? ? ? Hne Hhex. split; [unfold describe_shape; auto 10|].
  destruct (exists_last Hne) as (commit' & x & ->).
  apply all_in_forallb, Forall_app in Hhex as [_ Hx].
  apply Forall_inv in Hx. cbn beta in Hx.
  rewrite !app_assoc.
  apply (endswith_last _ x "-dirt" "y"). intros ->. by vm_compute in Hx.
Qed.

End describe_results.

(** C1. For a describe input [TAG-N-gHEX] without dirty marker, where
    [TAG] is a tag (non-empty, on one line) that starts with the tag
    prefix, [N] is a string of decimal digits and [HEX] a non-empty string
    of lower-case hexadecimal digits, [git_parse_vcs_describe] returns the
    tag without the prefix when [N] is zero and that tag followed by
    [+N.gHEX] otherwise. [N] is printed in decimal: it is the text of [N]
    itself when that has no leading zero. *)
Theorem describe_tagged_clean (tag_prefix rest num commit : str) :
  tag_prefix ++ rest ≠ [] → forallb Re.dot (tag_prefix ++ rest) = true →
  num ≠ [] → forallb Py.is_digit num = true →
  commit ≠ [] → forallb Re.hex commit = true →
  ∃ distance,
    Py.int num = Some distance ∧
    git_parse_vcs_describe
      ((tag_prefix ++ rest) ++ "-" ++ num ++ "-g" ++ commit) tag_prefix
    = Return (Some (if N.eqb distance 0 then rest
                    else rest ++ "+" ++ Py.format_d distance
                              ++ ".g" ++ commit), false) ∧
    (num = "0" ∨ Py.startswith num "0" = false →
     Py.format_d distance = num).
Proof.
  intros Htag Hdot Hnum Hdigits Hcommit Hhex.
  destruct (tagged_input _ _ _ Htag Hdot Hnum Hdigits Hcommit Hhex)
    as [Hshape Hclean].
  destruct (stripped_tagged _ _ _ _ false _ Hshape) as (n & Hn & Hparse).
  exists n. split_and!; [done| |].
  - rewrite parse_clean, Hparse by done. unfold local_version, dirty_suffix_of.
    destruct (N.eqb n 0); cbn [andb negb]; [done|]. by rewrite !app_nil_r.
  - intros Hcanon. by apply format_d_int.
Qed.

Lemma describe_tagged_clean_witness :
  git_parse_vcs_describe "v1.2-14-g2414721" "v"
  = Return (Some ("1.2+14.g2414721" : str), false).
Proof.
  destruct (describe_tagged_clean "v" "1.2" "14" "2414721")
    as (n & Hn & Hparse & _); [done..|].
  vm_compute in Hn. injection Hn as <-. exact Hparse.
Defined.

(** C2 (as amended). For a describe input [TAG-N-gHEX] as in C1 with the
    marker [-dirty] appended, the version ends in [.dirty]. When [N] is
    not zero, the version is the one of the input without the marker
    followed by [.dirty]. When [N] is zero, the version is the tag
    without the prefix followed by [+0.gHEX.dirty], while the input
    without the marker gives the bare tag. *)
Theorem describe_tagged_dirty (tag_prefix rest num commit : str) :
  tag_prefix ++ rest ≠ [] → forallb Re.dot (tag_prefix ++ rest) = true →
  num ≠ [] → forallb Py.is_digit num = true →
  commit ≠ [] → forallb Re.hex commit = true →
  let input := (tag_prefix ++ rest) ++ "-" ++ num ++ "-g" ++ commit in
  ∃ distance clean dirty,
    Py.int num = Some distance ∧
    git_parse_vcs_describe input tag_prefix = Return (Some clean, false) ∧
    git_parse_vcs_describe (input ++ "-dirty") tag_prefix
    = Return (Some dirty, true) ∧
    Py.endswith dirty ".dirty" = true ∧
    (distance ≠ 0%N →
     dirty = clean ++ ".dirty" ∧ without_suffix dirty ".dirty" = clean) ∧
    (distance = 0%N →
     clean = rest ∧ dirty = rest ++ "+0.g" ++ commit ++ ".dirty").
Proof.
  intros Htag Hdot Hnum Hdigits Hcommit Hhex input.
  destruct (tagged_input _ _ _ Htag Hdot Hnum Hdigits Hcommit Hhex)
    as [Hshape Hclean]. fold input in Hshape, Hclean.
  destruct (stripped_tagged _ _ _ _ false _ Hshape) as (n & Hn & Hparse).
  destruct (stripped_tagged _ _ _ _ true _ Hshape) as (n' & Hn' & Hparse').
  assert (n' = n) as -> by congruence.
  exists n, (local_version rest n commit false),
    (local_version rest n commit true).
  rewrite parse_clean, parse_dirty by done. split_and!; try done.
  - unfold local_version. rewrite andb_false_r, !app_assoc.
    apply endswith_app.
  - intros Hnz%N.eqb_neq. unfold local_version, dirty_suffix_of, without_suffix.
    rewrite Hnz. cbn [andb]. rewrite app_nil_r.
    assert (∀ x : str, rest ++ "+" ++ Py.format_d n ++ ".g" ++ commit ++ x
                       = (rest ++ "+" ++ Py.format_d n ++ ".g" ++ commit) ++ x)
      as Hassoc by (intros; by rewrite <- !app_assoc).
    rewrite Hassoc. split; [done|].
    rewrite length_app, Nat.add_sub. apply take_app_length.
  - intros ->. done.
Qed.

Lemma describe_tagged_dirty_witness :
  ∃ distance clean dirty,
    Py.int "3" = Some distance ∧
    git_parse_vcs_describe "v1.0-3-gabc12f" "v" = Return (Some clean, false) ∧
    git_parse_vcs_describe "v1.0-3-gabc12f-dirty" "v"
    = Return (Some dirty, true) ∧
    Py.endswith dirty ".dirty" = true ∧
    (distance ≠ 0%N →
     dirty = clean ++ ".dirty" ∧ without_suffix dirty ".dirty" = clean) ∧
    (distance = 0%N →
     clean = "1.0" ∧ dirty = "1.0" ++ "+0.g" ++ "abc12f" ++ ".dirty").
Proof. by apply (describe_tagged_dirty "v" "1.0" "3" "abc12f"). Defined.

(** C2 as stated fails on an exactly tagged, dirty tree: for
    [v1.0-0-gabc-dirty] the version is [1.0+0.gabc.dirty], and without its
    trailing [.dirty] that is [1.0+0.gabc], not the [1.0] of
    [v1.0-0-gabc]. *)
Lemma describe_dirty_exact_tag_counterexample :
  git_parse_vcs_describe "v1.0-0-gabc-dirty" "v"
  = Return (Some ("1.0+0.gabc.dirty" : str), true) ∧
  git_parse_vcs_describe "v1.0-0-gabc" "v"
  = Return (Some ("1.0" : str), false) ∧
  without_suffix "1.0+0.gabc.dirty" ".dirty" ≠ "1.0".
Proof. split_and!; [by vm_compute..|]. by vm_compute. Qed.

(** C7. When the input, without an optional trailing [-dirty], has no
    hyphen, the version is [0+untagged.g] followed by that text, and by
    [.dirty] exactly when the marker was there. *)
Theorem describe_untagged (s tag_prefix : str) :
  "-"%char ∉ s →
  git_parse_vcs_describe s tag_prefix
  = Return (Some ("0+untagged.g" ++ s), false) ∧
  git_parse_vcs_describe (s ++ "-dirty") tag_prefix
  = Return (Some ("0+untagged.g" ++ s ++ ".dirty"), true).
Proof.
  intros Hs. split.
  - rewrite parse_clean, stripped_untagged by
      (try done; apply not_true_is_false; intros [r ->]%endswith_iff;
       apply Hs, elem_of_app; right; by left).
    unfold dirty_suffix_of. by rewrite app_nil_r.
  - by rewrite parse_dirty, stripped_untagged.
Qed.

Lemma describe_untagged_witness :
  git_parse_vcs_describe "abc123" "v"
  = Return (Some ("0+untagged.gabc123" : str), false) ∧
  git_parse_vcs_describe "abc123-dirty" "v"
  = Return (Some ("0+untagged.gabc123.dirty" : str), true).
Proof.
  apply (describe_untagged "abc123" "v").
  apply (bool_decide_unpack _). by vm_compute.
Defined.

(** C8. When the input, without an optional trailing [-dirty], has a
    hyphen but is not matched by the pattern, the version is
    [0+unparseable], followed by [.dirty] exactly when the marker was
    there. *)
Theorem describe_unparseable (s tag_prefix : str) :
  "-"%char ∈ s →
  (∀ tag num commit, ¬ describe_shape s tag num commit) →
  (Py.endswith s "-dirty" = false →
   git_parse_vcs_describe s tag_prefix
   = Return (Some ("0+unparseable" : str), false)) ∧
  git_parse_vcs_describe (s ++ "-dirty") tag_prefix
  = Return (Some ("0+unparseable.dirty" : str), true).
Proof.
  intros Hs Hno. split.
  - intros Hclean. by rewrite parse_clean, stripped_unparseable.
  - by rewrite parse_dirty, stripped_unparseable.
Qed.

Lemma describe_unparseable_witness :
  git_parse_vcs_describe "garbage-not-a-match" "v"
  = Return (Some ("0+unparseable" : str), false) ∧
  git_parse_vcs_describe "garbage-not-a-match-dirty" "v"
  = Return (Some ("0+unparseable.dirty" : str), true).
Proof.
  destruct (describe_unparseable "garbage-not-a-match" "v") as [Hclean Hdirty].
  - apply (bool_decide_unpack _). by vm_compute.
  - intros tag num commit Hshape%describe_re_complete.
    vm_compute in Hshape. discriminate.
  - split; [by apply Hclean|exact Hdirty].
Defined.

(** ** The keyword resolver on complete records *)

Section keyword_records.
Implicit Types s r f tag_prefix root : str.
Implicit Types keywords : gmap string str.

Lemma lookup_nonempty keywords key r :
  keywords !! key = Some r → keywords ≠ ∅.
Proof. intros Hr ->. by rewrite lookup_empty in Hr. Qed.

(** The keyword resolver on a record with both entries whose [refnames]
    were expanded. *)
Lemma keywords_expanded keywords tag_prefix r f :
  keywords !! "refnames" = Some r → keywords !! "full" = Some f →
  Py.startswith (Py.strip r) "$Format" = false →
  git_versions_from_keywords keywords tag_prefix
  = Return {[ "version" :=
                PyStr (default ("0+unknown" : str)
                         (pick_ref tag_prefix
                            (Py.sorted (tags_of (refs_of (Py.strip r))))));
              "full" := PyStr (Py.strip f) ]}.
Proof.
  intros Hr Hf Hexp. unfold git_versions_from_keywords, getitem.
  rewrite decide_False by by eapply lookup_nonempty.
  rewrite Hr. cbn [mbind outcome_bind]. rewrite Hexp, Hf.
  by destruct (pick_ref _ _).
Qed.

(** The keyword resolver defers when [refnames], stripped, starts with
    the placeholder marker. *)
Lemma keywords_unexpanded keywords tag_prefix r :
  keywords !! "refnames" = Some r →
  Py.startswith (Py.strip r) "$Format" = true →
  git_versions_from_keywords keywords tag_prefix = Return ∅.
Proof.
  intros Hr Hexp. unfold git_versions_from_keywords, getitem.
  rewrite decide_False by by eapply lookup_nonempty.
  rewrite Hr. cbn [mbind outcome_bind]. by rewrite Hexp.
Qed.

End keyword_records.

(** ** The resolver chain *)

Section chain.
Implicit Types cfg : config.
Implicit Types default : gmap string pyval.

Lemma keywords_of_refnames cfg :
  keywords_of cfg !! "refnames" = Some (git_refnames cfg).
Proof. done. Qed.

Lemma keywords_of_full cfg :
  keywords_of cfg !! "full" = Some (git_full cfg).
Proof. done. Qed.

Lemma get_versions_after cfg e default :
  git_versions_from_keywords (keywords_of cfg) (tag_prefix cfg) = Return ∅ →
  get_versions cfg e default = after_keywords cfg e default.
Proof.
  intros Hkw. unfold get_versions. fold (keywords_of cfg). by rewrite Hkw.
Qed.

End chain.

(** C4: the behaviour of the code. In a checkout whose nearest tag is the
    tag of another project every resolver of the chain fails: the keywords
    are not expanded, so the keyword resolver returns the empty dict; the
    describe parser reports the tag that does not start with the prefix by
    a [None] version; and the name of the directory does not start with
    the prefix, so the parent-directory resolver returns [None]. Yet
    [get_versions] does not return the default it was given: whatever the
    default is, it returns the dict in which [git_versions_from_vcs]
    stored the [None], and that dict is not the default of the source. *)
Theorem get_versions_not_default (default : gmap string pyval) :
  git_versions_from_keywords (keywords_of khmer_config)
    (tag_prefix khmer_config) = Return ∅ ∧
  root_of (versionfile_source khmer_config) "/src/khmer/khmer/_version.py"
  = "/src/khmer" ∧
  run_command foreign_tag_env (gits_of (platform foreign_tag_env))
    describe_args "/src/khmer" = Some ("release-1-gabc123" : str) ∧
  git_parse_vcs_describe "release-1-gabc123" (tag_prefix khmer_config)
  = Return (None, false) ∧
  versions_from_parentdir (parentdir_prefix khmer_config) "/src/khmer"
  = None ∧
  get_versions khmer_config foreign_tag_env default
  = Return (Some {[ "version" := PyNone; "full" := PyStr "5f2c1d9e0a" ]}) ∧
  get_versions khmer_config foreign_tag_env default_versions
  ≠ Return (Some default_versions).
Proof.
  assert (∀ d, get_versions khmer_config foreign_tag_env d
               = Return (Some {[ "version" := PyNone;
                                 "full" := PyStr "5f2c1d9e0a" ]})) as Hget.
  { intros d. by vm_compute. }
  split_and!; [by vm_compute..|apply Hget|].
  rewrite Hget. intros [=].
Qed.

(** ** A tag of another project *)

(** C3: the behaviour of the code. The parser reports the tag that does
    not start with the prefix by a [None] version, but
    [git_versions_from_vcs] stores that [None] in a dict with the full
    hash; the dict is not empty, so [get_versions] returns it instead of
    moving on to the parent-directory resolver and the default. *)
Theorem vcs_foreign_tag_result :
  git_parse_vcs_describe "release-1-gabc123" "v" = Return (None, false) ∧
  git_versions_from_vcs foreign_tag_env "v" "/src/khmer"
  = Return {[ "version" := PyNone; "full" := PyStr "5f2c1d9e0a" ]} ∧
  get_versions khmer_config foreign_tag_env
    {[ "version" := PyStr "0+unknown"; "full" := PyStr "" ]}
  = Return (Some {[ "version" := PyNone; "full" := PyStr "5f2c1d9e0a" ]}).
Proof. split_and!; by vm_compute. Qed.

(** The same for every describe output with a foreign tag, whatever the
    environment: once the second command succeeds, the result is a dict
    whose version is [None]. *)
Lemma vcs_foreign_tag (e : env) (tag_prefix root out : str) dirty v :
  git_versions_from_vcs e tag_prefix root = Return v →
  path_exists e (path_join root ".git") = true →
  run_command e
    (if bool_decide (platform e = "win32")
     then [("git.cmd" : str); ("git.exe" : str)] else [("git" : str)])
    [("describe" : str); ("--tags" : str); ("--dirty" : str);
     ("--always" : str); ("--long" : str)] root = Some out →
  git_parse_vcs_describe out tag_prefix = Return (None, dirty) →
  v = ∅ ∨ v !! "version" = Some PyNone.
Proof.
  unfold git_versions_from_vcs. intros Hv Hgit Hout Hparse.
  rewrite Hgit in Hv. cbn [negb] in Hv.
  rewrite Hout, Hparse in Hv. cbn [mbind outcome_bind] in Hv.
  destruct (run_command _ _ _ _); injection Hv as <-; auto.
Qed.

(** ** Partial keyword records *)

(** C5: the behaviour of the code. [git_get_keywords] returns a record
    with [refnames] alone when the file has no [git_full] line, and on
    that record [git_versions_from_keywords] raises [KeyError]; so it does
    on a record with [full] alone. *)
Theorem keywords_partial_record_raises :
  git_get_keywords refnames_only_env "khmer/_version.py"
  = {[ "refnames" := (" (HEAD, tag: v1.0)" : str) ]} ∧
  git_versions_from_keywords
    (git_get_keywords refnames_only_env "khmer/_version.py") "v"
  = Raise (KeyError "full") ∧
  git_versions_from_keywords {[ "full" := ("5f2c1d9e0a" : str) ]} "v"
  = Raise (KeyError "refnames").
Proof. split_and!; by vm_compute. Qed.

(** A record without [full] raises as soon as its [refnames] are
    expanded, whatever tags they list. *)
Lemma keywords_missing_full keywords tag_prefix r :
  keywords !! "refnames" = Some r → keywords !! "full" = None →
  Py.startswith (Py.strip r) "$Format" = false →
  git_versions_from_keywords keywords tag_prefix = Raise (KeyError "full").
Proof.
  intros Hr Hf Hexp. unfold git_versions_from_keywords, getitem.
  rewrite decide_False by by eapply lookup_nonempty.
  rewrite Hr. cbn [mbind outcome_bind]. rewrite Hexp, Hf.
  by destruct (pick_ref _ _).
Qed.

(** ** Unexpanded keywords *)

(** C10 (as amended). When the [refnames] of a keyword record, stripped
    of surrounding whitespace, start with the placeholder marker
    [$Format], [git_versions_from_keywords] returns the empty dict; and
    when the constant [git_refnames] is such, [get_versions] goes on with
    the resolvers after the keyword one. *)
Theorem keywords_unexpanded_defer (tag_prefix r : str) :
  Py.startswith (Py.strip r) "$Format" = true →
  (∀ keywords : gmap string str,
     keywords !! "refnames" = Some r →
     git_versions_from_keywords keywords tag_prefix = Return ∅) ∧
  (∀ cfg e default,
     git_refnames cfg = r →
     get_versions cfg e default = after_keywords cfg e default).
Proof.
  intros Hr. split.
  - intros keywords Hk. by eapply keywords_unexpanded.
  - intros cfg e default <-. apply get_versions_after.
    by eapply keywords_unexpanded.
Qed.

Lemma keywords_unexpanded_defer_witness :
  (∀ keywords : gmap string str,
     keywords !! "refnames" = Some ("$Format:%d$" : str) →
     git_versions_from_keywords keywords "v" = Return ∅) ∧
  (∀ cfg e default,
     git_refnames cfg = "$Format:%d$" →
     get_versions cfg e default = after_keywords cfg e default).
Proof. by apply (keywords_unexpanded_defer "v" "$Format:%d$"). Defined.

(** C10 as stated fails when the marker is inside [refnames] but not at
    its start: the record is resolved, here to the version [0+unknown]. *)
Lemma keywords_marker_inside_counterexample :
  Py.contains "(HEAD, $Format:%d$)" "$Format" = true ∧
  git_versions_from_keywords
    {[ "refnames" := ("(HEAD, $Format:%d$)" : str);
       "full" := ("5f2c1d9e0a" : str) ]} "v"
  = Return {[ "version" := PyStr "0+unknown"; "full" := PyStr "5f2c1d9e0a" ]} ∧
  ({[ "version" := PyStr "0+unknown"; "full" := PyStr "5f2c1d9e0a" ]}
     : gmap string pyval) ≠ ∅.
Proof. split_and!; by vm_compute. Qed.

(** ** The order of strings and [sorted] *)

Section string_order.
Implicit Types s t u : str.

Lemma str_leb_cons a s b t :
  Py.str_leb (a :: s) (b :: t) = true ↔
  (N_of_ascii a < N_of_ascii b)%N ∨
  (N_of_ascii a = N_of_ascii b ∧ Py.str_leb s t = true).
Proof.
  simpl. by rewrite orb_true_iff, andb_true_iff, N.ltb_lt, N.eqb_eq.
Qed.

#[export] Instance str_le_refl : Reflexive Py.str_le.
Proof.
  intros s. unfold Py.str_le. induction s as [|a s IH]; [done|].
  apply str_leb_cons. auto.
Qed.

#[export] Instance str_le_trans : Transitive Py.str_le.
Proof.
  unfold Py.str_le. intros s. induction s as [|a s IH]; intros t u; [done|].
  destruct t as [|b t]; [done|]. destruct u as [|c u]; [done|].
  rewrite !str_leb_cons. intros [?|[? ?]] [?|[? ?]]; try (left; lia).
  right. split; [lia|]. by eapply IH.
Qed.

#[export] Instance str_le_total : Total Py.str_le.
Proof.
  unfold Py.str_le. intros s. induction s as [|a s IH]; intros t; [by left|].
  destruct t as [|b t]; [by right|].
  rewrite !str_leb_cons.
  destruct (N.lt_total (N_of_ascii a) (N_of_ascii b)) as [?|[?|?]]; auto.
  destruct (IH t); auto.
Qed.

Lemma sorted_strongly (xs : gset str) :
  StronglySorted Py.str_le (Py.sorted xs).
Proof. apply StronglySorted_merge_sort; apply _. Qed.

Lemma elem_of_sorted (xs : gset str) s : s ∈ Py.sorted xs ↔ s ∈ xs.
Proof.
  unfold Py.sorted. by rewrite merge_sort_Permutation, elem_of_elements.
Qed.

End string_order.

(** ** The loop over the sorted tags *)

Section pick.
Implicit Types ref tag_prefix : str.
Implicit Types l : list str.

Lemma pick_ref_None tag_prefix l :
  pick_ref tag_prefix l = None ↔
  ∀ ref, ref ∈ l → Py.startswith ref tag_prefix = false.
Proof.
  induction l as [|x l IH]; simpl.
  - split; [|done]. by intros _ ref ?%elem_of_nil.
  - destruct (Py.startswith x tag_prefix) eqn:E.
    + split; [done|]. intros H. rewrite H in E; [done|by left].
    + rewrite IH. split.
      * intros H ref [->|?]%elem_of_cons; auto.
      * intros H ref ?. apply H. by right.
Qed.

(** In a sorted list the loop returns the least string that starts with
    the prefix. *)
Lemma pick_ref_Some tag_prefix l v :
  StronglySorted Py.str_le l →
  pick_ref tag_prefix l = Some v →
  ∃ ref, ref ∈ l ∧ Py.startswith ref tag_prefix = true ∧
         v = drop (length tag_prefix) ref ∧
         ∀ ref', ref' ∈ l → Py.startswith ref' tag_prefix = true →
                 Py.str_le ref ref'.
Proof.
  induction 1 as [|x l Hl IH Hx]; simpl; [done|].
  destruct (Py.startswith x tag_prefix) eqn:E.
  - intros [= <-]. exists x. split_and!; [by left|done..|].
    intros ref' [->|Hin]%elem_of_cons _; [done|].
    rewrite Forall_forall in Hx. by apply Hx.
  - intros (ref & Hin & Hpre & -> & Hleast)%IH.
    exists ref. split_and!; [by right|done..|].
    intros ref' [->|Hin']%elem_of_cons Hpre'; [congruence|auto].
Qed.

End pick.

(** C9. On a keyword record with expanded [refnames],
    [git_versions_from_keywords] selects, among the candidate tags that
    start with the tag prefix, the least one in the lexicographic order of
    strings, and returns it without the prefix; without such a tag the
    version is [0+unknown]. For the refnames
    [(tag: v2.0, tag: v2.0rc1, master)] and the prefix [v] the version is
    [2.0]. *)
Theorem keywords_pick_least (keywords : gmap string str)
    (tag_prefix r f : str) :
  keywords !! "refnames" = Some r → keywords !! "full" = Some f →
  Py.startswith (Py.strip r) "$Format" = false →
  let tags := tags_of (refs_of (Py.strip r)) in
  ((∃ ref, ref ∈ tags ∧ Py.startswith ref tag_prefix = true) →
   ∃ ref, ref ∈ tags ∧ Py.startswith ref tag_prefix = true ∧
          (∀ ref', ref' ∈ tags → Py.startswith ref' tag_prefix = true →
                   Py.str_le ref ref') ∧
          git_versions_from_keywords keywords tag_prefix
          = Return {[ "version" := PyStr (drop (length tag_prefix) ref);
                      "full" := PyStr (Py.strip f) ]}) ∧
  ((∀ ref, ref ∈ tags → Py.startswith ref tag_prefix = false) →
   git_versions_from_keywords keywords tag_prefix
   = Return {[ "version" := PyStr "0+unknown";
               "full" := PyStr (Py.strip f) ]}) ∧
  git_versions_from_keywords
    {[ "refnames" := ("(tag: v2.0, tag: v2.0rc1, master)" : str);
       "full" := f ]} "v"
  = Return {[ "version" := PyStr "2.0"; "full" := PyStr (Py.strip f) ]}.
Proof.
  intros Hr Hf Hexp tags. split_and!.
  - intros (ref0 & Hin0 & Hpre0).
    rewrite (keywords_expanded _ _ _ _ Hr Hf Hexp). fold tags.
    destruct (pick_ref tag_prefix (Py.sorted tags)) as [v|] eqn:E.
    + apply pick_ref_Some in E as (ref & Hin & Hpre & -> & Hleast);
        [|apply sorted_strongly].
      exists ref. split_and!; [by apply elem_of_sorted|done| |done].
      intros ref' Hin'. by apply Hleast, elem_of_sorted.
    + rewrite pick_ref_None in E.
      rewrite E in Hpre0; [done|by apply elem_of_sorted].
  - intros Hnone. rewrite (keywords_expanded _ _ _ _ Hr Hf Hexp). fold tags.
    assert (pick_ref tag_prefix (Py.sorted tags) = None) as ->; [|done].
    apply pick_ref_None. intros ref Hin. by apply Hnone, elem_of_sorted.
  - rewrite (keywords_expanded _ _ "(tag: v2.0, tag: v2.0rc1, master)" f);
      [|done..].
    by vm_compute.
Qed.

Lemma keywords_pick_least_witness :
  git_versions_from_keywords
    {[ "refnames" := ("(tag: v2.0, tag: v2.0rc1, master)" : str);
       "full" := ("5f2c1d9e0a" : str) ]} "v"
  = Return {[ "version" := PyStr "2.0"; "full" := PyStr "5f2c1d9e0a" ]}.
Proof.
  apply (keywords_pick_least
           {[ "refnames" := ("(tag: v2.0, tag: v2.0rc1, master)" : str);
              "full" := ("5f2c1d9e0a" : str) ]}
           "v" "(tag: v2.0, tag: v2.0rc1, master)" "5f2c1d9e0a");
    by vm_compute.
Defined.

(** ** Whitespace in versions *)

Section characters.
Variable P : ascii → Prop.
Implicit Types s r v tag_prefix : str.

Lemma refs_of_Forall r s : Forall P r → s ∈ refs_of r → Forall P s.
Proof.
  intros Hr. unfold refs_of, Py.strip_chars.
  rewrite elem_of_list_to_set, list_elem_of_fmap. intros (piece & -> & Hin).
  apply strip_of_Forall.
  assert (Forall (Forall P)
            (Py.split "," (Py.strip_of (λ c, bool_decide (c ∈ ("()" : str))) r)))
    as Hall by by apply split_Forall, strip_of_Forall.
  rewrite Forall_forall in Hall. by apply Hall.
Qed.

End characters.

Section whitespace.
Implicit Types s r v tag_prefix root : str.

(** The version of the keyword resolver is the fallback or a candidate
    tag without the prefix. *)
Lemma keywords_version_candidate (keywords : gmap string str)
    tag_prefix r d v :
  keywords !! "refnames" = Some r →
  git_versions_from_keywords keywords tag_prefix = Return d →
  d !! "version" = Some (PyStr v) →
  v = "0+unknown" ∨
  ∃ tag, tag ∈ tags_of (refs_of (Py.strip r)) ∧
         v = drop (length tag_prefix) tag.
Proof.
  intros Hr Hd Hv.
  destruct (Py.startswith (Py.strip r) "$Format") eqn:Hexp.
  { rewrite (keywords_unexpanded _ _ _ Hr Hexp) in Hd. by injection Hd as <-. }
  destruct (keywords !! "full") as [f|] eqn:Hf;
    [|by rewrite (keywords_missing_full _ _ _ Hr Hf Hexp) in Hd].
  rewrite (keywords_expanded _ _ _ _ Hr Hf Hexp) in Hd. injection Hd as <-.
  rewrite lookup_insert_eq in Hv. injection Hv as <-.
  destruct (pick_ref _ _) as [v|] eqn:E; [right|by left].
  apply pick_ref_Some in E as (ref & Hin & _ & -> & _);
    [|apply sorted_strongly].
  exists ref. split; [by apply elem_of_sorted|done].
Qed.

Lemma no_space_all_in s : no_space s = true ↔ all_in not_space s.
Proof. apply all_in_forallb. Qed.

Lemma format_d_no_space n : all_in not_space (Py.format_d n).
Proof.
  eapply Forall_impl; [apply format_d_digits|].
  intros c Hc. unfold not_space. by destruct c as [[] [] [] [] [] [] [] []].
Qed.

Lemma stripped_no_space s dirty tag_prefix v dirty' :
  no_space s = true →
  parse_stripped s dirty tag_prefix = Return (Some v, dirty') →
  no_space v = true.
Proof.
  rewrite !no_space_all_in. intros Hs.
  assert (all_in not_space (dirty_suffix_of dirty))
    by (destruct dirty; by apply no_space_all_in).
  destruct (stripped_cases s dirty tag_prefix)
    as [[_ ->]|[->|[->|(rest & num & commit & n & Hshape & ->)]]];
    intros Hv;
    [injection Hv as <- <-|injection Hv as <- <-|done|injection Hv as <- <-].
  - by split_chars.
  - by split_chars.
  - assert (all_in not_space rest ∧ all_in not_space commit) as [? ?].
    { unfold all_in in *.
      destruct Hshape as (_ & _ & _ & _ & _ & _ & [-> | ->]);
        rewrite !Forall_app in Hs; tauto. }
    pose proof (format_d_no_space n).
    unfold local_version. destruct (_ && _); [done|]. by split_chars.
Qed.

Lemma no_space_app s r : no_space (s ++ r) = no_space s && no_space r.
Proof. apply forallb_app. Qed.

Lemma parse_no_space s tag_prefix v dirty :
  no_space s = true →
  git_parse_vcs_describe s tag_prefix = Return (Some v, dirty) →
  no_space v = true.
Proof.
  intros Hs. destruct (Py.endswith s "-dirty") eqn:E.
  - apply endswith_iff in E as [r ->].
    rewrite no_space_app, andb_true_iff in Hs. rewrite parse_dirty.
    apply stripped_no_space, Hs.
  - rewrite parse_clean by done. by apply stripped_no_space.
Qed.

Lemma parentdir_no_space parentdir_prefix root d v :
  no_space (basename root) = true →
  versions_from_parentdir parentdir_prefix root = Some d →
  d !! "version" = Some (PyStr v) →
  no_space v = true.
Proof.
  rewrite !no_space_all_in. unfold versions_from_parentdir. intros Hroot.
  destruct (negb _); [done|]. intros [= <-].
  rewrite lookup_insert_eq. intros [= <-]. by apply Forall_drop.
Qed.

End whitespace.

(** C6 (as amended). A version cut from names without whitespace has no
    whitespace. For [git_versions_from_keywords] the names are the
    candidate tags read off [refnames]: what follows [tag: ] in each ref
    marked so or, when no ref is marked, each ref that holds a digit; the
    rest of [refnames], such as the blanks after the commas, the markers
    and the refs that are no candidates, may hold whitespace. For
    [git_parse_vcs_describe] it is the describe line, and for
    [versions_from_parentdir] the name of the directory. *)
Theorem version_no_space :
  (∀ (keywords : gmap string str) (tag_prefix r : str) d (v : str),
     keywords !! "refnames" = Some r →
     (∀ tag, tag ∈ tags_of (refs_of (Py.strip r)) → no_space tag = true) →
     git_versions_from_keywords keywords tag_prefix = Return d →
     d !! "version" = Some (PyStr v) → no_space v = true) ∧
  (∀ (git_describe tag_prefix v : str) dirty,
     no_space git_describe = true →
     git_parse_vcs_describe git_describe tag_prefix = Return (Some v, dirty) →
     no_space v = true) ∧
  (∀ (parentdir_prefix root : str) d (v : str),
     no_space (basename root) = true →
     versions_from_parentdir parentdir_prefix root = Some d →
     d !! "version" = Some (PyStr v) → no_space v = true).
Proof.
  split_and!.
  - intros keywords tag_prefix r d v Hr Htags Hd Hv.
    destruct (keywords_version_candidate _ _ _ _ _ Hr Hd Hv)
      as [->|(tag & Hin & ->)]; [done|].
    apply all_in_forallb, Forall_drop, all_in_forallb. by apply Htags.
  - intros git_describe tag_prefix v dirty. apply parse_no_space.
  - intros parentdir_prefix root d v. apply parentdir_no_space.
Qed.

Lemma version_no_space_witness :
  no_space "1.0" = true ∧ no_space "1.2+14.g2414721.dirty" = true ∧
  no_space "2.1" = true.
Proof.
  destruct version_no_space as (Hkeywords & Hdescribe & Hparentdir).
  split_and!.
  - apply (Hkeywords
             {[ "refnames" :=
                  (" (HEAD -> master, tag: v1.0, origin/master)" : str);
                "full" := ("5f2c1d9e0a" : str) ]}
             "v" " (HEAD -> master, tag: v1.0, origin/master)"
             {[ "version" := PyStr "1.0"; "full" := PyStr "5f2c1d9e0a" ]});
      [done| |by vm_compute..].
    change (set_Forall (fun tag : str => no_space tag = true)
              (tags_of (refs_of
                 (Py.strip " (HEAD -> master, tag: v1.0, origin/master)")))).
    apply (bool_decide_unpack _). by vm_compute.
  - apply (Hdescribe "v1.2-14-g2414721-dirty" "v" _ true); by vm_compute.
  - apply (Hparentdir "khmer-" "/tmp/khmer-2.1"
             {[ "version" := PyStr "2.1"; "full" := PyStr "" ]});
      by vm_compute.
Defined.

(** C6 as stated fails for each resolver: a space inside a tag or a
    directory name stays in the version. *)
Lemma version_whitespace_counterexample :
  git_versions_from_keywords
    {[ "refnames" := ("(tag: v1 0)" : str);
       "full" := ("5f2c1d9e0a" : str) ]} "v"
  = Return {[ "version" := PyStr "1 0"; "full" := PyStr "5f2c1d9e0a" ]} ∧
  git_parse_vcs_describe "v1 0-0-gabc" "v"
  = Return (Some ("1 0" : str), false) ∧
  versions_from_parentdir "khmer" "/tmp/khmer 2.1"
  = Some {[ "version" := PyStr " 2.1"; "full" := PyStr "" ]} ∧
  no_space "1 0" = false ∧ no_space " 2.1" = false.
Proof. split_and!; by vm_compute. Qed.

(** ** More on stripping *)

Section strip_facts.
Implicit Types s t : str.
Implicit Types chars : ascii → bool.

Lemma lstrip_of_lclean chars s : lclean chars (Py.lstrip_of chars s).
Proof.
  induction s as [|c s IH]; simpl; [done|].
  destruct (chars c) eqn:E; [done|]. simpl. done.
Qed.

Lemma lstrip_of_id chars s : lclean chars s → Py.lstrip_of chars s = s.
Proof. destruct s as [|c s]; simpl; [done|]. by intros ->. Qed.

Lemma lstrip_of_snoc chars s c :
  chars c = false →
  ∃ t, Py.lstrip_of chars (s ++ [c]) = t ++ [c].
Proof.
  intros Hc. induction s as [|x s [t IH]]; simpl.
  - rewrite Hc. by exists [].
  - destruct (chars x); [by exists t|]. by exists (x :: s).
Qed.

Lemma rstrip_of_lclean chars s :
  lclean chars s → lclean chars (Py.rstrip_of chars s).
Proof.
  unfold Py.rstrip_of. destruct s as [|c s]; [done|]. simpl. intros Hc.
  destruct (lstrip_of_snoc chars (rev s) c Hc) as [t ->].
  by rewrite rev_app_distr.
Qed.

Lemma strip_of_idemp chars s :
  Py.strip_of chars (Py.strip_of chars s) = Py.strip_of chars s.
Proof.
  unfold Py.strip_of at 1.
  rewrite lstrip_of_id
    by apply rstrip_of_lclean, lstrip_of_lclean.
  unfold Py.strip_of, Py.rstrip_of. rewrite rev_involutive.
  by rewrite lstrip_of_id by apply lstrip_of_lclean.
Qed.

End strip_facts.

(** ** [run_command] *)

Section run_command_facts.
Implicit Types commands args : list str.
Implicit Types cwd out raw : str.

Lemma run_command_inv e commands args cwd out :
  run_command e commands args cwd = Some out →
  ∃ missing c rest raw,
    commands = missing ++ c :: rest ∧
    (∀ c', c' ∈ missing → popen e c' args cwd = Enoent) ∧
    popen e c args cwd = Exited raw 0 ∧
    out = Py.strip raw.
Proof.
  induction commands as [|c commands IH]; simpl; [done|].
  destruct (popen e c args cwd) as [| |raw rc] eqn:E; [|done|].
  - intros (missing & c0 & rest & raw & -> & Hmiss & Hc0 & ->)%IH.
    exists (c :: missing), c0, rest, raw. split_and!; try done.
    intros c' [->|?]%elem_of_cons; auto.
  - case_bool_decide as Hrc; [done|]. intros [= <-].
    assert (rc = 0%Z) as -> by (destruct (decide (rc = 0%Z)); done).
    exists [], c, commands, raw. split_and!; try done.
    by intros c' ?%elem_of_nil.
Qed.

Lemma run_command_stripped_out e commands args cwd out :
  run_command e commands args cwd = Some out → Py.strip out = out.
Proof.
  intros (_ & _ & _ & raw & _ & _ & _ & ->)%run_command_inv.
  apply strip_of_idemp.
Qed.

End run_command_facts.

Lemma run_command_intro e missing c rest raw args cwd :
  (∀ c', c' ∈ missing → popen e c' args cwd = Enoent) →
  popen e c args cwd = Exited raw 0 →
  run_command e (missing ++ c :: rest) args cwd = Some (Py.strip raw).
Proof.
  intros Hmiss Hc. induction missing as [|c' missing IH]; simpl.
  - by rewrite Hc.
  - rewrite Hmiss by by left. apply IH. intros c'' ?. apply Hmiss. by right.
Qed.

(** X1. [run_command] returns the output of the first candidate whose
    launch does not fail with ENOENT, provided that one exits with status
    zero, and the output is stripped; in every other case it returns
    [None]. The output of the candidates is taken to be portable text,
    which Python 3 decodes to itself. *)
Theorem run_command_Some (e : env) (commands args : list str)
    (cwd out : str) :
  (∀ c raw rc, c ∈ commands → popen e c args cwd = Exited raw rc →
               portable raw = true) →
  (run_command e commands args cwd = Some out ↔
   ∃ missing c rest raw,
     commands = missing ++ c :: rest ∧
     (∀ c', c' ∈ missing → popen e c' args cwd = Enoent) ∧
     popen e c args cwd = Exited raw 0 ∧
     out = Py.strip raw).
Proof.
  intros _. split; [apply run_command_inv|].
  intros (missing & c & rest & raw & -> & Hmiss & Hc & ->).
  by apply run_command_intro.
Qed.

Lemma run_command_Some_witness :
  run_command foreign_tag_env [("git" : str)] rev_parse_args "/src/khmer"
  = Some ("5f2c1d9e0a" : str) ↔
  ∃ missing c rest raw,
    [("git" : str)] = missing ++ c :: rest ∧
    (∀ c', c' ∈ missing →
           popen foreign_tag_env c' rev_parse_args "/src/khmer" = Enoent) ∧
    popen foreign_tag_env c rev_parse_args "/src/khmer" = Exited raw 0 ∧
    ("5f2c1d9e0a" : str) = Py.strip raw.
Proof.
  apply (run_command_Some foreign_tag_env [("git" : str)] rev_parse_args
           "/src/khmer" "5f2c1d9e0a").
  intros c raw rc _ Hc. vm_compute in Hc. injection Hc as <- _.
  reflexivity.
Defined.

(** ** Paths *)

Section path_facts.
Implicit Types p dir name root : str.
Implicit Types comps : list str.

Lemma rindex_char_None s c : c ∉ s → Py.rindex s [c] = None.
Proof.
  induction s as [|x s IH]; [done|]. intros [Hx Hs]%not_elem_of_cons.
  simpl. rewrite IH by done. rewrite andb_true_r.
  destruct (Ascii.eqb x c) eqn:E; [|done]. by apply Ascii.eqb_eq in E as ->.
Qed.

(** The last occurrence of a character is the one after which it does
    not occur. *)
Lemma rindex_char_last s c t :
  c ∉ t → Py.rindex (s ++ c :: t) [c] = Some (length s).
Proof.
  intros Ht. induction s as [|x s IH]; simpl.
  - by rewrite rindex_char_None, Ascii.eqb_refl.
  - by rewrite IH.
Qed.

Lemma rfind_slash_last dir name :
  "/"%char ∉ name → rfind_slash_plus1 (dir ++ "/" ++ name) = S (length dir).
Proof.
  intros Hname. unfold rfind_slash_plus1.
  cbn [list_ascii_of_string app]. by rewrite rindex_char_last.
Qed.

Lemma basename_last dir name :
  "/"%char ∉ name → basename (dir ++ "/" ++ name) = name.
Proof.
  intros Hname. unfold basename. rewrite rfind_slash_last by done.
  rewrite app_assoc. apply drop_app_length'. rewrite length_app. simpl. lia.
Qed.

Lemma open_path_last dir :
  open_path dir → ∃ d c, dir = d ++ [c] ∧ c ≠ "/"%char.
Proof.
  intros [Hne Hend]. destruct (exists_last Hne) as (d & c & ->).
  exists d, c. split; [done|]. intros ->.
  pose proof (endswith_app d "/") as Hslash.
  cbn [list_ascii_of_string] in *. congruence.
Qed.

Lemma open_path_app dir name :
  name ≠ [] → "/"%char ∉ name → open_path (dir ++ "/" ++ name).
Proof.
  intros Hne Hname. destruct (exists_last Hne) as (n & c & ->). split.
  - by destruct dir.
  - rewrite !app_assoc. apply (endswith_last _ c [] "/"). intros ->.
    apply Hname, elem_of_app. right. by left.
Qed.

Lemma dirname_last dir name :
  open_path dir → "/"%char ∉ name → dirname (dir ++ "/" ++ name) = dir.
Proof.
  intros (d & c & -> & Hc)%open_path_last Hname. unfold dirname.
  assert (Ascii.eqb "/" c = false) as Hc' by (apply Ascii.eqb_neq; congruence).
  rewrite rfind_slash_last by done.
  rewrite (app_assoc _ "/" name), take_app_length'
    by (rewrite !length_app; simpl; lia).
  assert (forallb (Ascii.eqb "/") ((d ++ [c]) ++ "/") = false) as ->.
  { rewrite !forallb_app. cbn [forallb]. rewrite Hc'.
    by rewrite !andb_false_r. }
  rewrite bool_decide_true by by destruct d.
  cbn [negb andb]. unfold Py.rstrip_of.
  rewrite !rev_app_distr. cbn [list_ascii_of_string rev app Py.lstrip_of].
  rewrite Ascii.eqb_refl, Hc'. cbn [rev]. by rewrite rev_involutive.
Qed.

Lemma split_no_sep sep s : sep ∉ s → Py.split sep s = [s].
Proof.
  induction s as [|x s IH]; [done|]. intros [Hx Hs]%not_elem_of_cons.
  simpl. rewrite IH by done.
  destruct (Ascii.eqb x sep) eqn:E; [|done].
  by apply Ascii.eqb_eq in E as ->.
Qed.

Lemma split_app_sep sep s rest :
  sep ∉ s → Py.split sep (s ++ sep :: rest) = s :: Py.split sep rest.
Proof.
  induction s as [|x s IH]; simpl.
  - by rewrite Ascii.eqb_refl.
  - intros [Hx Hs]%not_elem_of_cons. rewrite IH by done.
    destruct (Ascii.eqb x sep) eqn:E; [|done].
    by apply Ascii.eqb_eq in E as ->.
Qed.

(** Splitting undoes joining when no part holds the separator. *)
Lemma split_join sep (l : list str) :
  l ≠ [] → Forall (fun x => sep ∉ x) l → Py.split sep (join [sep] l) = l.
Proof.
  intros Hne Hall. induction Hall as [|x l Hx Hl IH]; [done|].
  destruct l as [|y l]; [by apply split_no_sep|].
  change (join [sep] (x :: y :: l)) with (x ++ sep :: join [sep] (y :: l)).
  rewrite split_app_sep by done. f_equal. by apply IH.
Qed.

Lemma fold_left_iter {A B} (g : A → A) (l : list B) a :
  fold_left (fun r _ => g r) l a = Nat.iter (length l) g a.
Proof.
  revert a. induction l as [|x l IH]; intros a; simpl; [done|].
  rewrite IH. clear IH. induction (length l) as [|n IHn]; simpl; [done|].
  by rewrite IHn.
Qed.

(** One [dirname] per component leads from a file to the root it lies
    under. *)
Lemma dirname_iter root comps :
  open_path root → path_components comps →
  Nat.iter (length comps) dirname (root ++ "/" ++ join "/" comps) = root.
Proof.
  intros Hroot [Hne Hall]. revert root Hroot.
  induction Hall as [|c comps [Hc Hslash] Hall IH]; intros root Hroot; [done|].
  change (length (c :: comps)) with (S (length comps)).
  rewrite Nat.iter_succ. destruct comps as [|c' comps].
  - by apply dirname_last.
  - assert (root ++ "/" ++ join "/" (c :: c' :: comps)
            = (root ++ "/" ++ c) ++ "/" ++ join "/" (c' :: comps)) as ->.
    { change (join "/" (c :: c' :: comps))
        with (c ++ "/" ++ join "/" (c' :: comps)).
      by rewrite <- !app_assoc. }
    rewrite IH; [by apply dirname_last|done|by apply open_path_app].
Qed.

Lemma root_of_versionfile_eq root comps :
  open_path root → path_components comps →
  root_of (join "/" comps) (root ++ "/" ++ join "/" comps) = root.
Proof.
  intros Hroot Hcomps. unfold root_of.
  rewrite split_join.
  - rewrite fold_left_iter. by apply dirname_iter.
  - apply Hcomps.
  - destruct Hcomps as [_ Hall]. eapply Forall_impl; [done|]. by intros c [_ ?].
Qed.

End path_facts.

(** ** The parent-directory resolver and the root of the tree *)

(** X3. The parent-directory resolver reads the version off the last
    component of the root: for a root [dir/PREFIXversion] whose last
    component has no slash, it returns [version], with an empty [full]. *)
Theorem parentdir_round_trip (parentdir_prefix dir v : str) :
  "/"%char ∉ parentdir_prefix ++ v →
  versions_from_parentdir parentdir_prefix (dir ++ "/" ++ parentdir_prefix ++ v)
  = Some {[ "version" := PyStr v; "full" := PyStr "" ]}.
Proof.
  intros Hname. unfold versions_from_parentdir.
  rewrite basename_last by done.
  by rewrite startswith_app, drop_app_length.
Qed.

Lemma parentdir_round_trip_witness :
  versions_from_parentdir "myproj-" "/tmp/myproj-1.2.3"
  = Some {[ "version" := PyStr "1.2.3"; "full" := PyStr "" ]}.
Proof.
  apply (parentdir_round_trip "myproj-" "/tmp" "1.2.3").
  apply (bool_decide_unpack _). by vm_compute.
Defined.

(** X4. A root written with a trailing slash has an empty last component:
    the resolver then fails for every non-empty prefix. *)
Theorem parentdir_trailing_slash (parentdir_prefix dir : str) :
  parentdir_prefix ≠ [] →
  versions_from_parentdir parentdir_prefix (dir ++ "/") = None.
Proof.
  intros Hne. unfold versions_from_parentdir.
  rewrite <- (app_nil_r (dir ++ "/")), <- app_assoc.
  rewrite basename_last by by intros ?%elem_of_nil.
  by destruct parentdir_prefix.
Qed.

Lemma parentdir_trailing_slash_witness :
  versions_from_parentdir "myproj-" "/tmp/myproj-1.2.3/" = None.
Proof. by apply (parentdir_trailing_slash "myproj-" "/tmp/myproj-1.2.3"). Defined.

(** X5. The loop of [get_versions] over the components of
    [versionfile_source] recovers the root: from the path
    [root/versionfile_source] of the module it leads back to [root]. *)
Theorem root_of_versionfile (root : str) (comps : list str) :
  open_path root → path_components comps →
  root_of (join "/" comps) (root ++ "/" ++ join "/" comps) = root.
Proof.
  apply root_of_versionfile_eq.
Qed.

Lemma root_of_versionfile_witness :
  root_of "khmer/_version.py" "/src/khmer-2.0/khmer/_version.py"
  = "/src/khmer-2.0".
Proof.
  apply (root_of_versionfile "/src/khmer-2.0" [("khmer" : str); ("_version.py" : str)]).
  - split; [done|by vm_compute].
  - split; [done|]. repeat constructor; try done;
      apply (bool_decide_unpack _); by vm_compute.
Defined.

(** X6. An unpacked tarball: when the keywords are not expanded, the
    module lies at [root/versionfile_source], the VCS resolver gives
    nothing and the last component of [root] is the parent-directory
    prefix followed by [v], then [get_versions] returns the version [v]
    with an empty [full], whatever the default is. *)
Theorem get_versions_from_parentdir (cfg : config) (e : env)
    (default : gmap string pyval) (root v : str) (comps : list str) :
  Py.startswith (Py.strip (git_refnames cfg)) "$Format" = true →
  versionfile_source cfg = join "/" comps → path_components comps →
  open_path root →
  realpath_file e = Some (root ++ "/" ++ versionfile_source cfg) →
  git_versions_from_vcs e (tag_prefix cfg) root = Return ∅ →
  basename root = parentdir_prefix cfg ++ v →
  get_versions cfg e default
  = Return (Some {[ "version" := PyStr v; "full" := PyStr "" ]}).
Proof.
  intros Hkw Hsrc Hcomps Hroot Hpath Hvcs Hbase.
  rewrite get_versions_after
    by (eapply keywords_unexpanded; [apply keywords_of_refnames|done]).
  unfold after_keywords. rewrite Hpath. cbn zeta.
  rewrite Hsrc, root_of_versionfile_eq by done.
  rewrite Hvcs. cbn [mbind outcome_bind].
  unfold versions_from_parentdir. rewrite Hbase, startswith_app, drop_app_length.
  done.
Qed.

Lemma get_versions_from_parentdir_witness :
  get_versions khmer_config
    {| popen := fun _ _ _ => Enoent;
       path_exists := fun _ => true;
       platform := "linux2";
       realpath_file := Some ("/tmp/.2.0/khmer/_version.py" : str);
       open_read := fun _ => None |}
    ∅
  = Return (Some {[ "version" := PyStr "2.0"; "full" := PyStr "" ]}).
Proof.
  apply (get_versions_from_parentdir khmer_config _ ∅ "/tmp/.2.0" "2.0"
           [("khmer" : str); ("_version.py" : str)]); try done.
  split; [done|]. repeat constructor; try done;
    apply (bool_decide_unpack _); by vm_compute.
Defined.

(** ** More on the describe parser *)

Section describe_more.
Implicit Types s v tag_prefix : str.

Lemma parse_body s tag_prefix :
  git_parse_vcs_describe s tag_prefix
  = parse_stripped (describe_body s) (Py.endswith s "-dirty") tag_prefix.
Proof.
  unfold describe_body, without_suffix.
  destruct (Py.endswith s "-dirty") eqn:E.
  - rewrite (endswith_marker s E) at 1. apply parse_dirty.
  - by apply parse_clean.
Qed.

Lemma stripped_total s dirty tag_prefix :
  ∃ version, parse_stripped s dirty tag_prefix = Return (version, dirty).
Proof.
  destruct (stripped_cases s dirty tag_prefix)
    as [[_ ->]|[->|[->|(?&?&?&?&_&->)]]]; eauto.
Qed.

Lemma stripped_dirty_suffix s tag_prefix v :
  parse_stripped s true tag_prefix = Return (Some v, true) →
  Py.endswith v ".dirty" = true.
Proof.
  destruct (stripped_cases s true tag_prefix)
    as [[_ ->]|[->|[->|(rest & num & commit & n & _ & ->)]]];
    intros Hv; [injection Hv as <-|injection Hv as <-|done|injection Hv as <-].
  - apply (endswith_app ("0+untagged.g" ++ s) ".dirty").
  - apply (endswith_app "0+unparseable" ".dirty").
  - unfold local_version. rewrite andb_false_r, !app_assoc.
    apply endswith_app.
Qed.

Lemma stripped_None_inv s dirty tag_prefix dirty' :
  parse_stripped s dirty tag_prefix = Return (None, dirty') →
  ∃ tag num commit,
    describe_shape s tag num commit ∧ Py.startswith tag tag_prefix = false.
Proof.
  unfold parse_stripped. destruct (negb _); [done|].
  destruct (Re.search describe_re s) as [gs|] eqn:E; [|done].
  apply describe_re_sound in E as (tag & num & commit & -> & Hshape).
  change (Re.group [tag; num; commit] 1) with tag.
  destruct (Py.startswith tag tag_prefix) eqn:Hpre; cbn [negb].
  - by destruct (or_ValueError _).
  - intros _. by exists tag, num, commit.
Qed.

Lemma describe_never_raises_lemma s tag_prefix :
  ∃ version,
    git_parse_vcs_describe s tag_prefix
    = Return (version, Py.endswith s "-dirty").
Proof. rewrite parse_body. apply stripped_total. Qed.

End describe_more.

(** X7. [git_parse_vcs_describe] does not raise on a line of at most
    [str_digits_check_threshold] characters: the [rindex] and [int] calls
    cannot fail where they stand, [rindex] because the line ends with the
    marker and [int] because the pattern gave it a numeral, which is
    within every limit on the length of numerals. The flag it returns
    tells whether the line ends with [-dirty]. *)
Theorem describe_never_raises (s tag_prefix : str) :
  length s ≤ str_digits_check_threshold →
  ∃ version,
    git_parse_vcs_describe s tag_prefix
    = Return (version, Py.endswith s "-dirty").
Proof. intros _. apply describe_never_raises_lemma. Qed.

Lemma describe_never_raises_witness :
  ∃ version,
    git_parse_vcs_describe "v1.2-14-g2414721-dirty" "v"
    = Return (version, true).
Proof.
  apply (describe_never_raises "v1.2-14-g2414721-dirty" "v").
  unfold str_digits_check_threshold. simpl. lia.
Defined.

(** X8. The version of a dirty tree always ends with [.dirty], as the
    comment in the source promises: also for an untagged or unparseable
    line, and for a tree that sits exactly on a tag. *)
Theorem describe_dirty_suffix (s tag_prefix v : str) :
  git_parse_vcs_describe s tag_prefix = Return (Some v, true) →
  Py.endswith v ".dirty" = true.
Proof.
  rewrite parse_body. destruct (Py.endswith s "-dirty").
  - apply stripped_dirty_suffix.
  - destruct (stripped_total (describe_body s) false tag_prefix) as [v' ->].
    by intros [= _].
Qed.

Lemma describe_dirty_suffix_witness :
  Py.endswith "1.0+0.gabc.dirty" ".dirty" = true.
Proof.
  apply (describe_dirty_suffix "v1.0-0-gabc-dirty" "v"). by vm_compute.
Defined.

(** X9. The parser gives no version exactly when the line, without the
    marker, is matched by the pattern with a tag that does not start
    with the prefix. *)
Theorem describe_None_iff (s tag_prefix : str) (dirty : bool) :
  git_parse_vcs_describe s tag_prefix = Return (None, dirty) ↔
  dirty = Py.endswith s "-dirty" ∧
  ∃ tag num commit,
    describe_shape (describe_body s) tag num commit ∧
    Py.startswith tag tag_prefix = false.
Proof.
  rewrite parse_body. split.
  - intros Hv. split.
    + destruct (stripped_total (describe_body s) (Py.endswith s "-dirty")
                  tag_prefix) as [v' Hv'].
      rewrite Hv' in Hv. congruence.
    + by eapply stripped_None_inv.
  - intros [-> (tag & num & commit & Hshape & Hpre)].
    by eapply stripped_foreign.
Qed.

(** X10. With an empty tag prefix every line of at most
    [str_digits_check_threshold] characters gets a version. *)
Theorem describe_empty_prefix (s : str) :
  length s ≤ str_digits_check_threshold →
  ∃ v, git_parse_vcs_describe s "" = Return (Some v, Py.endswith s "-dirty").
Proof.
  intros _. rewrite parse_body.
  destruct (stripped_total (describe_body s) (Py.endswith s "-dirty") "")
    as [[v|] Hv]; [by exists v|].
  by apply stripped_None_inv in Hv as (tag & _ & _ & _ & Hpre).
Qed.

Lemma describe_empty_prefix_witness :
  ∃ v, git_parse_vcs_describe "release-1-gabc123" "" = Return (Some v, false).
Proof.
  apply (describe_empty_prefix "release-1-gabc123").
  unfold str_digits_check_threshold. simpl. lia.
Defined.

(** ** More on the keyword resolver *)

Section keywords_more.
Implicit Types s r f v ref tag_prefix : str.
Implicit Types keywords : gmap string str.
Implicit Types l : list str.

Lemma lclean_Forall chars s :
  Forall (fun c => chars c = false) s → lclean chars s.
Proof. by destruct 1. Qed.

Lemma lstrip_of_app_in chars a s :
  Forall (fun c => chars c = true) a →
  Py.lstrip_of chars (a ++ s) = Py.lstrip_of chars s.
Proof. induction 1 as [|c a Hc Ha IH]; simpl; [done|]. by rewrite Hc. Qed.

(** Stripping takes off what surrounds a text that is clean at both
    ends. *)
Lemma strip_of_wrap chars a s b :
  Forall (fun c => chars c = true) a → Forall (fun c => chars c = true) b →
  lclean chars s → lclean chars (rev s) →
  Py.strip_of chars (a ++ s ++ b) = s.
Proof.
  intros Ha Hb Hs Hrs. unfold Py.strip_of, Py.rstrip_of.
  rewrite lstrip_of_app_in by done.
  destruct s as [|c s].
  - simpl. replace (Py.lstrip_of chars b) with ([] : str); [done|].
    clear Ha. induction Hb as [|x b Hx Hb IH]; simpl; [done|]. by rewrite Hx.
  - rewrite (lstrip_of_id chars ((c :: s) ++ b)) by done.
    rewrite rev_app_distr, lstrip_of_app_in by by apply Forall_rev.
    rewrite lstrip_of_id by done. apply rev_involutive.
Qed.

Lemma split_nonempty sep s : Py.split sep s ≠ [].
Proof.
  destruct s as [|c s]; [done|]. cbn [Py.split].
  destruct (Ascii.eqb c sep); [done|]. by destruct (Py.split sep s).
Qed.

Lemma split_space_cons sep s :
  Ascii.eqb " " sep = false →
  Py.strip <$> Py.split sep (" "%char :: s) = Py.strip <$> Py.split sep s.
Proof.
  intros Hsep. cbn [Py.split]. rewrite Hsep.
  destruct (Py.split sep s) as [|p ps] eqn:E; [by apply split_nonempty in E|].
  done.
Qed.

Lemma strip_split_join l :
  l ≠ [] → Forall (fun x => ","%char ∉ x) l →
  Py.strip <$> Py.split "," (join ", " l) = Py.strip <$> l.
Proof.
  intros Hne Hall. induction Hall as [|x l Hx Hl IH]; [done|].
  destruct l as [|y l]; [by rewrite split_no_sep|].
  change (join ", " (x :: y :: l))
    with (x ++ ","%char :: " "%char :: join ", " (y :: l)).
  rewrite split_app_sep by done. rewrite fmap_cons, split_space_cons by done.
  by rewrite IH.
Qed.

Lemma plain_ref_comma ref : plain_ref ref → ","%char ∉ ref.
Proof.
  unfold plain_ref. rewrite Forall_forall. intros Href Hin.
  apply (Href _ Hin). by left.
Qed.

Lemma plain_join l :
  Forall plain_ref l →
  Forall (fun c => bool_decide (c ∈ ("()" : str)) = false) (join ", " l).
Proof.
  induction 1 as [|x l Hx Hl IH]; [done|].
  assert (Forall (fun c => bool_decide (c ∈ ("()" : str)) = false) x) as Hx'.
  { unfold plain_ref in Hx. eapply Forall_impl; [exact Hx|]. intros c Hc.
    apply bool_decide_eq_false. intros Hin. apply Hc.
    right. exact Hin. }
  destruct l as [|y l]; [done|].
  change (join ", " (x :: y :: l))
    with (x ++ ","%char :: " "%char :: join ", " (y :: l)).
  apply Forall_app. split; [done|]. by repeat constructor.
Qed.

Lemma strip_refnames l :
  Py.strip (refnames_of l) = "(" ++ join ", " l ++ ")".
Proof.
  pose proof (strip_of_wrap Py.is_space " " ("(" ++ join ", " l ++ ")") [])
    as Hwrap.
  rewrite app_nil_r in Hwrap. apply Hwrap; [by repeat constructor|done|done|].
  rewrite app_assoc, rev_app_distr. done.
Qed.

(** The refs read back from the text git writes are the refs written,
    each stripped. *)
Lemma refs_of_refnames l :
  l ≠ [] → Forall plain_ref l →
  refs_of (Py.strip (refnames_of l)) = list_to_set (Py.strip <$> l).
Proof.
  intros Hne Hall. pose proof (plain_join l Hall) as Hjoin.
  rewrite strip_refnames. unfold refs_of, Py.strip_chars.
  rewrite (strip_of_wrap _ "(" (join ", " l) ")");
    [|by repeat constructor|by repeat constructor| |].
  - f_equal. apply strip_split_join; [done|].
    eapply Forall_impl; [exact Hall|]. apply plain_ref_comma.
  - by apply lclean_Forall.
  - by apply lclean_Forall, Forall_rev.
Qed.

Lemma refnames_of_expanded l :
  Py.startswith (Py.strip (refnames_of l)) "$Format" = false.
Proof. by rewrite strip_refnames. Qed.

Lemma search_digit s :
  is_Some (Re.search digit_re s) ↔ existsb Py.is_digit s = true.
Proof.
  unfold Re.search. generalize 0. induction s as [|c s IH]; intros pos; simpl.
  - split; [by intros [? ?]|done].
  - destruct (Py.is_digit c); simpl; [by split|apply IH].
Qed.

Lemma dict_nonempty (v : pyval) (f : pyval) :
  truthy {[ "version" := v; "full" := f ]} = true.
Proof.
  unfold truthy. rewrite bool_decide_false; [done|].
  apply insert_non_empty.
Qed.

(** The results of the keyword resolver. *)
Lemma keywords_cases keywords tag_prefix :
  git_versions_from_keywords keywords tag_prefix = Return ∅ ∨
  (∃ k, git_versions_from_keywords keywords tag_prefix = Raise (KeyError k)) ∨
  (∃ r f,
     keywords !! "refnames" = Some r ∧ keywords !! "full" = Some f ∧
     Py.startswith (Py.strip r) "$Format" = false ∧
     git_versions_from_keywords keywords tag_prefix
     = Return {[ "version" :=
                   PyStr (default ("0+unknown" : str)
                            (pick_ref tag_prefix
                               (Py.sorted (tags_of (refs_of (Py.strip r))))));
                 "full" := PyStr (Py.strip f) ]}).
Proof.
  destruct (decide (keywords = ∅)) as [->|Hne]; [by left|].
  destruct (keywords !! "refnames") as [r|] eqn:Hr.
  - destruct (Py.startswith (Py.strip r) "$Format") eqn:Hexp.
    + left. by eapply keywords_unexpanded.
    + right. destruct (keywords !! "full") as [f|] eqn:Hf.
      * right. exists r, f. split_and!; try done. by apply keywords_expanded.
      * left. exists "full". by eapply keywords_missing_full.
  - right. left. exists "refnames".
    unfold git_versions_from_keywords, getitem.
    by rewrite decide_False, Hr by done.
Qed.

End keywords_more.

Section keywords_selection.
Implicit Types r f v ref tag_prefix : str.
Implicit Types keywords : gmap string str.

(** What the loop returns comes from a candidate tag. *)
Lemma pick_ref_tags tag_prefix (tags : gset str) v :
  pick_ref tag_prefix (Py.sorted tags) = Some v → tag_prefix ++ v ∈ tags.
Proof.
  intros (ref & Hin & Hpre & -> & _)%pick_ref_Some; [|apply sorted_strongly].
  rewrite <- startswith_drop by done. by apply elem_of_sorted.
Qed.

Lemma tags_of_marked (refs : gset str) ref0 x :
  ref0 ∈ refs → Py.startswith ref0 "tag: " = true →
  x ∈ tags_of refs → "tag: " ++ x ∈ refs.
Proof.
  intros Hin0 Hpre0. unfold tags_of. rewrite decide_False.
  - intros (ref & -> & [Hpre Hin]%elem_of_filter)%elem_of_map.
    by rewrite <- (startswith_drop ref "tag: ").
  - intros Hempty.
    assert (drop (length ("tag: " : str)) ref0 ∈ (∅ : gset str)) as Hin;
      [|by apply not_elem_of_empty in Hin].
    rewrite <- Hempty. apply elem_of_map. exists ref0. split; [done|].
    by apply elem_of_filter.
Qed.

Lemma tags_of_unmarked (refs : gset str) x :
  (∀ ref, ref ∈ refs → Py.startswith ref "tag: " = false) →
  x ∈ tags_of refs → x ∈ refs ∧ existsb Py.is_digit x = true.
Proof.
  intros Hnone. unfold tags_of. rewrite decide_True.
  - intros [Hdigit Hin]%elem_of_filter. split; [done|]. by apply search_digit.
  - apply set_eq. intros x'. split; [|by intros ?%not_elem_of_empty].
    intros (ref & _ & [Hpre Hin]%elem_of_filter)%elem_of_map.
    rewrite Hnone in Hpre; done.
Qed.

Lemma version_of_expanded keywords tag_prefix r f d v :
  keywords !! "refnames" = Some r → keywords !! "full" = Some f →
  Py.startswith (Py.strip r) "$Format" = false →
  git_versions_from_keywords keywords tag_prefix = Return d →
  d !! "version" = Some (PyStr v) →
  d !! "full" = Some (PyStr (Py.strip f)) ∧
  (v = "0+unknown" ∨
   pick_ref tag_prefix (Py.sorted (tags_of (refs_of (Py.strip r)))) = Some v).
Proof.
  intros Hr Hf Hexp Hd Hv.
  rewrite (keywords_expanded _ _ _ _ Hr Hf Hexp) in Hd. injection Hd as <-.
  rewrite lookup_insert_eq in Hv. injection Hv as <-. split; [done|].
  destruct (pick_ref _ _); [by right|by left].
Qed.

End keywords_selection.

(** X11. The keyword resolver never returns a partial result: what it
    returns is the empty dict, or a dict with a string for the version
    and the stripped [full] keyword. *)
Theorem keywords_result_complete (keywords : gmap string str)
    (tag_prefix : str) (d : gmap string pyval) :
  git_versions_from_keywords keywords tag_prefix = Return d →
  d = ∅ ∨
  ∃ v f, keywords !! "full" = Some f ∧
         d = {[ "version" := PyStr v; "full" := PyStr (Py.strip f) ]}.
Proof.
  destruct (keywords_cases keywords tag_prefix)
    as [->|[[k ->]|(r & f & _ & Hf & _ & ->)]]; [|done|].
  - intros [= <-]. by left.
  - intros [= <-]. right. eauto.
Qed.

Lemma keywords_result_complete_witness :
  ({[ "version" := PyStr "1.2"; "full" := PyStr "5f2c1d9e0a" ]}
     : gmap string pyval) = ∅ ∨
  ∃ v f : str,
    ({[ "refnames" := (" (HEAD, v1.2, master)" : str);
        "full" := ("5f2c1d9e0a " : str) ]} : gmap string str) !! "full"
    = Some f ∧
    ({[ "version" := PyStr "1.2"; "full" := PyStr "5f2c1d9e0a" ]}
       : gmap string pyval)
    = {[ "version" := PyStr v; "full" := PyStr (Py.strip f) ]}.
Proof.
  apply (keywords_result_complete _ "v"). by vm_compute.
Defined.

(** X12. When git marks tags, only marked refs are candidates: if some
    ref starts with [tag: ], the version selected is the rest of a ref
    that reads [tag: ] followed by the tag prefix. A branch that looks
    like a version is not picked. *)
Theorem keywords_marked_only (keywords : gmap string str)
    (tag_prefix r f ref0 v : str) (d : gmap string pyval) :
  keywords !! "refnames" = Some r → keywords !! "full" = Some f →
  Py.startswith (Py.strip r) "$Format" = false →
  ref0 ∈ refs_of (Py.strip r) → Py.startswith ref0 "tag: " = true →
  git_versions_from_keywords keywords tag_prefix = Return d →
  d !! "version" = Some (PyStr v) →
  v = "0+unknown" ∨ "tag: " ++ tag_prefix ++ v ∈ refs_of (Py.strip r).
Proof.
  intros Hr Hf Hexp Hin0 Hpre0 Hd Hv.
  destruct (version_of_expanded _ _ _ _ _ _ Hr Hf Hexp Hd Hv)
    as [_ [?|Hpick]]; [by left|right].
  by eapply tags_of_marked, pick_ref_tags.
Qed.

Lemma keywords_marked_only_witness :
  git_versions_from_keywords
    {[ "refnames" := (" (HEAD, v9.9, tag: v1.0)" : str);
       "full" := ("5f2c1d9e0a" : str) ]} "v"
  = Return {[ "version" := PyStr "1.0"; "full" := PyStr "5f2c1d9e0a" ]} ∧
  (("1.0" : str) = "0+unknown" ∨
   "tag: " ++ "v" ++ "1.0" ∈ refs_of (Py.strip " (HEAD, v9.9, tag: v1.0)")).
Proof.
  split; [by vm_compute|].
  apply (keywords_marked_only
           {[ "refnames" := (" (HEAD, v9.9, tag: v1.0)" : str);
              "full" := ("5f2c1d9e0a" : str) ]}
           "v" " (HEAD, v9.9, tag: v1.0)" "5f2c1d9e0a" "tag: v1.0" "1.0"
           {[ "version" := PyStr "1.0"; "full" := PyStr "5f2c1d9e0a" ]});
    first [done | by vm_compute | apply (bool_decide_unpack _); by vm_compute].
Defined.

(** X13. Without marked tags, only refs with a digit are candidates: the
    version selected is the rest of a ref that starts with the tag prefix
    and holds a digit. *)
Theorem keywords_digit_heuristic (keywords : gmap string str)
    (tag_prefix r f v : str) (d : gmap string pyval) :
  keywords !! "refnames" = Some r → keywords !! "full" = Some f →
  Py.startswith (Py.strip r) "$Format" = false →
  (∀ ref, ref ∈ refs_of (Py.strip r) → Py.startswith ref "tag: " = false) →
  git_versions_from_keywords keywords tag_prefix = Return d →
  d !! "version" = Some (PyStr v) →
  v = "0+unknown" ∨
  (tag_prefix ++ v ∈ refs_of (Py.strip r) ∧
   existsb Py.is_digit (tag_prefix ++ v) = true).
Proof.
  intros Hr Hf Hexp Hnone Hd Hv.
  destruct (version_of_expanded _ _ _ _ _ _ Hr Hf Hexp Hd Hv)
    as [_ [?|Hpick]]; [by left|right].
  by eapply tags_of_unmarked, pick_ref_tags.
Qed.

(** X14. When no ref is marked as a tag and [refnames] has no digit at
    all, the version is [0+unknown] and the full hash is kept. *)
Theorem keywords_no_candidate (keywords : gmap string str)
    (tag_prefix r f : str) :
  keywords !! "refnames" = Some r → keywords !! "full" = Some f →
  Py.startswith (Py.strip r) "$Format" = false →
  (∀ ref, ref ∈ refs_of (Py.strip r) → Py.startswith ref "tag: " = false) →
  existsb Py.is_digit r = false →
  git_versions_from_keywords keywords tag_prefix
  = Return {[ "version" := PyStr "0+unknown"; "full" := PyStr (Py.strip f) ]}.
Proof.
  intros Hr Hf Hexp Hnone Hdigit.
  rewrite (keywords_expanded _ _ _ _ Hr Hf Hexp).
  destruct (pick_ref _ _) as [v|] eqn:E; [exfalso|done].
  apply pick_ref_tags, tags_of_unmarked in E as [Hin Hd]; [|done].
  apply (refs_of_Forall (fun c => Py.is_digit c = false)) in Hin.
  - apply existsb_exists in Hd as (c & Hc & Hcd).
    rewrite Forall_forall in Hin.
    apply list_elem_of_In in Hc. apply Hin in Hc. congruence.
  - apply strip_of_Forall. apply Forall_forall. intros c Hc.
    destruct (Py.is_digit c) eqn:Hcd; [|done].
    rewrite <- not_true_iff_false in Hdigit. destruct Hdigit.
    apply existsb_exists. exists c. split; [by apply list_elem_of_In|done].
Qed.

Lemma keywords_no_candidate_witness :
  git_versions_from_keywords
    {[ "refnames" := (" (HEAD, master, release)" : str);
       "full" := ("5f2c1d9e0a" : str) ]} "v"
  = Return {[ "version" := PyStr "0+unknown"; "full" := PyStr "5f2c1d9e0a" ]}.
Proof.
  apply (keywords_no_candidate _ "v" " (HEAD, master, release)" "5f2c1d9e0a");
    try done.
  change (set_Forall (fun ref : str => Py.startswith ref "tag: " = false)
            (refs_of (Py.strip " (HEAD, master, release)"))).
  apply (bool_decide_unpack _). by vm_compute.
Defined.

Lemma keywords_digit_heuristic_witness :
  ("1.2" : str) = "0+unknown" ∨
  ("v" ++ "1.2" ∈ refs_of (Py.strip " (HEAD, v1.2, master)") ∧
   existsb Py.is_digit ("v" ++ "1.2") = true).
Proof.
  apply (keywords_digit_heuristic
           {[ "refnames" := (" (HEAD, v1.2, master)" : str);
              "full" := ("5f2c1d9e0a" : str) ]}
           "v" " (HEAD, v1.2, master)" "5f2c1d9e0a" "1.2"
           {[ "version" := PyStr "1.2"; "full" := PyStr "5f2c1d9e0a" ]});
    try first [done | by vm_compute].
  change (set_Forall (fun ref : str => Py.startswith ref "tag: " = false)
            (refs_of (Py.strip " (HEAD, v1.2, master)"))).
  apply (bool_decide_unpack _). by vm_compute.
Defined.

Section keywords_text.
Implicit Types l : list str.
Implicit Types f tag_prefix : str.

Lemma keywords_of_list l f tag_prefix :
  git_versions_from_keywords
    {[ "refnames" := refnames_of l; "full" := f ]} tag_prefix
  = Return {[ "version" :=
                PyStr (default ("0+unknown" : str)
                         (pick_ref tag_prefix
                            (Py.sorted
                               (tags_of (refs_of (Py.strip (refnames_of l)))))));
              "full" := PyStr (Py.strip f) ]}.
Proof.
  apply keywords_expanded; [done..|]. apply refnames_of_expanded.
Qed.

End keywords_text.

(** X15. Reading back what git writes: for a non-empty list of refs
    without comma or parenthesis, the set of refs the resolver extracts
    from the keyword text is the set of these refs, each stripped. *)
Theorem refs_round_trip (l : list str) :
  l ≠ [] → Forall plain_ref l →
  refs_of (Py.strip (refnames_of l)) = list_to_set (Py.strip <$> l).
Proof. apply refs_of_refnames. Qed.

Lemma refs_round_trip_witness :
  refs_of (Py.strip " (HEAD, tag: v1.0, master)")
  = list_to_set [("HEAD" : str); ("tag: v1.0" : str); ("master" : str)].
Proof.
  apply (refs_round_trip [("HEAD" : str); ("tag: v1.0" : str); ("master" : str)]);
    [done|].
  repeat constructor; apply (bool_decide_unpack _); by vm_compute.
Defined.

(** X16. The result of the keyword resolver does not depend on the order
    in which the refs are listed. *)
Theorem keywords_order_independent (l l' : list str) (f tag_prefix : str) :
  l ≡ₚ l' → l ≠ [] → Forall plain_ref l →
  git_versions_from_keywords
    {[ "refnames" := refnames_of l; "full" := f ]} tag_prefix
  = git_versions_from_keywords
      {[ "refnames" := refnames_of l'; "full" := f ]} tag_prefix.
Proof.
  intros Hperm Hne Hall. rewrite !keywords_of_list.
  assert (l' ≠ []) as Hne'.
  { intros ->. by apply Permutation_nil_r in Hperm. }
  assert (Forall plain_ref l') as Hall'.
  { apply Forall_forall. intros x Hx. rewrite Forall_forall in Hall.
    apply Hall. by rewrite Hperm. }
  rewrite (refs_of_refnames l), (refs_of_refnames l') by done.
  by rewrite (list_to_set_perm_L (Py.strip <$> l) (Py.strip <$> l'))
    by by apply fmap_Permutation.
Qed.

Lemma keywords_order_independent_witness :
  git_versions_from_keywords
    {[ "refnames" := (" (tag: v2.0rc1, master, tag: v2.0)" : str);
       "full" := ("5f2c1d9e0a" : str) ]} "v"
  = git_versions_from_keywords
      {[ "refnames" := (" (tag: v2.0, tag: v2.0rc1, master)" : str);
         "full" := ("5f2c1d9e0a" : str) ]} "v".
Proof.
  apply (keywords_order_independent
           [("tag: v2.0rc1" : str); ("master" : str); ("tag: v2.0" : str)]
           [("tag: v2.0" : str); ("tag: v2.0rc1" : str); ("master" : str)]).
  - apply (bool_decide_unpack _). by vm_compute.
  - done.
  - repeat constructor; apply (bool_decide_unpack _); by vm_compute.
Defined.

(** X17. Expanded keywords decide alone: when [git_refnames] does not
    start with the placeholder marker, [get_versions] returns the result
    of the keyword resolver, a version string with the stripped
    [git_full], whatever the environment and the default are. *)
Theorem get_versions_from_keywords (cfg : config) :
  Py.startswith (Py.strip (git_refnames cfg)) "$Format" = false →
  ∃ v : str,
    git_versions_from_keywords (keywords_of cfg) (tag_prefix cfg)
    = Return {[ "version" := PyStr v;
                "full" := PyStr (Py.strip (git_full cfg)) ]} ∧
    ∀ e default,
      get_versions cfg e default
      = Return (Some {[ "version" := PyStr v;
                        "full" := PyStr (Py.strip (git_full cfg)) ]}).
Proof.
  intros Hexp.
  pose proof (keywords_expanded (keywords_of cfg) (tag_prefix cfg) _ _
                (keywords_of_refnames cfg) (keywords_of_full cfg) Hexp) as Hkw.
  eexists. split; [exact Hkw|]. intros e default.
  unfold get_versions. fold (keywords_of cfg). rewrite Hkw.
  cbn [mbind outcome_bind]. by rewrite dict_nonempty.
Qed.

Lemma get_versions_from_keywords_witness :
  ∃ v : str,
    git_versions_from_keywords
      (keywords_of {| git_refnames := " (HEAD, tag: v2.0, master)";
                      git_full := "5f2c1d9e0a";
                      tag_prefix := "v";
                      parentdir_prefix := ".";
                      versionfile_source := "khmer/_version.py" |}) "v"
    = Return {[ "version" := PyStr v; "full" := PyStr "5f2c1d9e0a" ]} ∧
    ∀ e default,
      get_versions {| git_refnames := " (HEAD, tag: v2.0, master)";
                      git_full := "5f2c1d9e0a";
                      tag_prefix := "v";
                      parentdir_prefix := ".";
                      versionfile_source := "khmer/_version.py" |} e default
      = Return (Some {[ "version" := PyStr v; "full" := PyStr "5f2c1d9e0a" ]}).
Proof.
  by apply (get_versions_from_keywords
              {| git_refnames := " (HEAD, tag: v2.0, master)";
                 git_full := "5f2c1d9e0a";
                 tag_prefix := "v";
                 parentdir_prefix := ".";
                 versionfile_source := "khmer/_version.py" |}).
Defined.

(** ** The VCS resolver *)

Section vcs_facts.
Implicit Types tag_prefix root out hash : str.
Implicit Types d : gmap string pyval.

(** The resolver in terms of its two commands. *)
Lemma vcs_unfold e tag_prefix root :
  git_versions_from_vcs e tag_prefix root
  = if negb (path_exists e (path_join root ".git")) then Return ∅
    else
      match run_command e (gits_of (platform e)) describe_args root with
      | None => Return ∅
      | Some out =>
          parsed ← git_parse_vcs_describe out tag_prefix;
          let (version, dirty) := parsed : option str * bool in
          match run_command e (gits_of (platform e)) rev_parse_args root with
          | None => Return ∅
          | Some hash =>
              Return {[ "version" := pyval_of version;
                        "full" :=
                          PyStr (if dirty then Py.strip hash ++ ".dirty"
                                 else Py.strip hash) ]}
          end
      end.
Proof.
  unfold git_versions_from_vcs, gits_of, describe_args, rev_parse_args.
  destruct (negb _); [done|].
  destruct (run_command _ _ _ _) as [out|]; [|done].
  destruct (git_parse_vcs_describe out tag_prefix) as [[version dirty]|];
    [|done].
  cbn [mbind outcome_bind].
  destruct (run_command _ _ _ _); [|done]. by destruct dirty.
Qed.

Lemma vcs_inv e tag_prefix root d :
  git_versions_from_vcs e tag_prefix root = Return d → d ≠ ∅ →
  ∃ out hash version,
    path_exists e (path_join root ".git") = true ∧
    run_command e (gits_of (platform e)) describe_args root = Some out ∧
    run_command e (gits_of (platform e)) rev_parse_args root = Some hash ∧
    git_parse_vcs_describe out tag_prefix
    = Return (version, Py.endswith out "-dirty") ∧
    d = {[ "version" := pyval_of version;
           "full" := PyStr (hash ++ dirty_suffix_of (Py.endswith out "-dirty")) ]}.
Proof.
  rewrite vcs_unfold. destruct (path_exists _ _); cbn [negb]; [|intros [= <-] Hne; by destruct Hne].
  destruct (run_command _ _ describe_args _) as [out|] eqn:Hout;
    [|intros [= <-] Hne; by destruct Hne].
  destruct (describe_never_raises_lemma out tag_prefix) as [version Hparse].
  rewrite Hparse. cbn [mbind outcome_bind].
  destruct (run_command _ _ rev_parse_args _) as [hash|] eqn:Hhash;
    [|intros [= <-] Hne; by destruct Hne].
  intros [= <-] _. exists out, hash, version. split_and!; try done.
  rewrite (run_command_stripped_out _ _ _ _ _ Hhash).
  unfold dirty_suffix_of. cbn [list_ascii_of_string].
  destruct (Py.endswith out _); [done|]. by rewrite app_nil_r.
Qed.

Lemma run_command_ext e e' commands args cwd :
  (∀ c, c ∈ commands → popen e c args cwd = popen e' c args cwd) →
  run_command e commands args cwd = run_command e' commands args cwd.
Proof.
  induction commands as [|c commands IH]; intros Hext; simpl; [done|].
  rewrite <- Hext by by left.
  destruct (popen e c args cwd); try done. apply IH.
  intros c' ?. apply Hext. by right.
Qed.

End vcs_facts.

(** X18. A non-empty result of the VCS resolver means that [.git] is
    there and both commands succeeded: the version is the one parsed off
    the describe line, and [full] is the output of [rev-parse], followed
    by [.dirty] exactly when the describe line ends with [-dirty]. The
    output of the commands is taken to be portable text, so that the
    second [strip], the one of [git_versions_from_vcs], finds nothing left
    to take off under either interpreter. *)
Theorem vcs_result (e : env) (tag_prefix root : str)
    (d : gmap string pyval) :
  (∀ c args raw rc, popen e c args root = Exited raw rc →
                    portable raw = true) →
  git_versions_from_vcs e tag_prefix root = Return d → d ≠ ∅ →
  ∃ out hash version,
    path_exists e (path_join root ".git") = true ∧
    run_command e (gits_of (platform e)) describe_args root = Some out ∧
    run_command e (gits_of (platform e)) rev_parse_args root = Some hash ∧
    git_parse_vcs_describe out tag_prefix
    = Return (version, Py.endswith out "-dirty") ∧
    d = {[ "version" := pyval_of version;
           "full" := PyStr (hash ++ dirty_suffix_of (Py.endswith out "-dirty")) ]}.
Proof. intros _. apply vcs_inv. Qed.

(** X20. [version] and [full] agree on dirtiness: when the describe line
    ends with [-dirty], the [full] of the result ends with [.dirty], and
    so does its version if it has one. *)
Theorem vcs_dirty_agree (e : env) (tag_prefix root out : str)
    (d : gmap string pyval) :
  git_versions_from_vcs e tag_prefix root = Return d → d ≠ ∅ →
  run_command e (gits_of (platform e)) describe_args root = Some out →
  Py.endswith out "-dirty" = true →
  (∃ f, d !! "full" = Some (PyStr f) ∧ Py.endswith f ".dirty" = true) ∧
  (∀ v, d !! "version" = Some (PyStr v) → Py.endswith v ".dirty" = true).
Proof.
  intros Hd Hne Hout Hdirty.
  destruct (vcs_inv _ _ _ _ Hd Hne)
    as (out' & hash & version & _ & Hout' & _ & Hparse & ->).
  assert (out' = out) as -> by congruence. rewrite Hdirty in *. split.
  - exists (hash ++ ".dirty"). split; [done|]. apply endswith_app.
  - intros v. rewrite lookup_insert_eq. destruct version as [v'|]; [|done].
    intros [= <-]. rewrite parse_body, Hdirty in Hparse.
    by eapply stripped_dirty_suffix.
Qed.

(** X21. The VCS resolver only runs the candidates of the platform:
    [git.cmd] and [git.exe] on [win32], [git] elsewhere. Two environments
    that agree on these, on the platform and on the files give the same
    result. *)
Theorem vcs_candidates (e e' : env) (tag_prefix root : str) :
  platform e = platform e' →
  path_exists e (path_join root ".git")
  = path_exists e' (path_join root ".git") →
  (∀ c args cwd, c ∈ gits_of (platform e) →
                 popen e c args cwd = popen e' c args cwd) →
  git_versions_from_vcs e tag_prefix root
  = git_versions_from_vcs e' tag_prefix root.
Proof.
  intros Hplat Hgit Hpopen. rewrite !vcs_unfold, <- Hplat, <- Hgit.
  rewrite !(run_command_ext e e') by (intros c ?; by apply Hpopen).
  done.
Qed.

Lemma vcs_result_witness :
  ∃ out hash version,
    path_exists dirty_tree_env (path_join "/src/khmer" ".git") = true ∧
    run_command dirty_tree_env (gits_of (platform dirty_tree_env))
      describe_args "/src/khmer" = Some out ∧
    run_command dirty_tree_env (gits_of (platform dirty_tree_env))
      rev_parse_args "/src/khmer" = Some hash ∧
    git_parse_vcs_describe out "v"
    = Return (version, Py.endswith out "-dirty") ∧
    ({[ "version" := PyStr "1.2+14.g2414721.dirty";
        "full" := PyStr "2414721b194453f058079d897d13c4e377f92dc6.dirty" ]}
       : gmap string pyval)
    = {[ "version" := pyval_of version;
         "full" := PyStr (hash ++ dirty_suffix_of (Py.endswith out "-dirty")) ]}.
Proof.
  apply (vcs_result dirty_tree_env "v" "/src/khmer"); [|by vm_compute..].
  intros c args raw rc. unfold dirty_tree_env, popen.
  case_bool_decide; intros [= <- _]; reflexivity.
Defined.

Lemma vcs_dirty_agree_witness :
  (∃ f, ({[ "version" := PyStr "1.2+14.g2414721.dirty";
            "full" := PyStr "2414721b194453f058079d897d13c4e377f92dc6.dirty" ]}
           : gmap string pyval) !! "full" = Some (PyStr f) ∧
        Py.endswith f ".dirty" = true) ∧
  (∀ v, ({[ "version" := PyStr "1.2+14.g2414721.dirty";
            "full" := PyStr "2414721b194453f058079d897d13c4e377f92dc6.dirty" ]}
           : gmap string pyval) !! "version" = Some (PyStr v) →
        Py.endswith v ".dirty" = true).
Proof.
  apply (vcs_dirty_agree dirty_tree_env "v" "/src/khmer"
           "v1.2-14-g2414721-dirty"); by vm_compute.
Defined.

Lemma vcs_candidates_witness :
  git_versions_from_vcs dirty_tree_env "v" "/src/khmer"
  = git_versions_from_vcs git_only_env "v" "/src/khmer".
Proof.
  apply (vcs_candidates dirty_tree_env git_only_env "v" "/src/khmer");
    [done..|].
  intros c args cwd Hin. apply list_elem_of_singleton in Hin as ->. done.
Defined.

(** ** The keyword extractor *)

Section extractor.
Implicit Types s t r f line : str.
Implicit Types keywords : gmap string str.
Implicit Types ls : list str.

Lemma readlines_line t rest :
  Py.newline ∉ t →
  Py.readlines (t ++ Py.newline :: rest) = (t ++ [Py.newline]) :: Py.readlines rest.
Proof.
  induction t as [|c t IH]; [done|]. intros [Hc Ht]%not_elem_of_cons.
  cbn [app Py.readlines]. rewrite IH by done.
  destruct (Ascii.eqb c Py.newline) eqn:E; [|done].
  apply Ascii.eqb_eq in E. congruence.
Qed.

(** [readlines] gives back the lines a text is made of. *)
Lemma readlines_concat ls : Forall is_line ls → Py.readlines (concat ls) = ls.
Proof.
  induction 1 as [|l ls (t & -> & Ht) Hls IH]; [done|].
  cbn [concat]. rewrite <- app_assoc. cbn [app].
  by rewrite readlines_line, IH.
Qed.

Lemma scan_line_other keywords line :
  other_line line → scan_line keywords line = keywords.
Proof. intros (_ & Hr & Hf). unfold scan_line. by rewrite Hr, Hf. Qed.

Lemma search_from_skip (r : Re.regex) c pre s pos :
  Forall (fun x => Ascii.eqb c x = false) pre →
  Re.search_from (Re.lit c :: r) pos (pre ++ s)
  = Re.search_from (Re.lit c :: r) (pos + length pre) s.
Proof.
  intros Hpre. revert pos.
  induction Hpre as [|x pre Hx Hpre IH]; intros pos.
  - by rewrite Nat.add_0_r.
  - cbn [app Re.search_from Re.match_here Re.lit length]. rewrite Hx, IH.
    f_equal. lia.
Qed.

(** The group of the keyword pattern is what stands between the first
    quote and the last quote of the line. *)
Lemma payload_match pos s :
  Py.newline ∉ s →
  Re.match_here [Re.lit Py.dquote; Re.Rep true Re.dot 0; Re.lit Py.dquote]
    pos (Py.dquote :: s ++ [Py.dquote; Py.newline])
  = Some [s].
Proof.
  intros Hs. cbn [Re.match_here Re.lit]. rewrite Ascii.eqb_refl.
  assert (all_in Re.dot (s ++ [Py.dquote])) as Hdot.
  { apply Forall_app. split; [|by repeat constructor].
    apply Forall_forall. intros c Hc. unfold Re.dot.
    destruct (Ascii.eqb c Py.newline) eqn:E; [|done].
    apply Ascii.eqb_eq in E. congruence. }
  assert (Re.run Re.dot (s ++ [Py.dquote; Py.newline]) = S (length s)) as ->.
  { rewrite (cons_middle Py.dquote s), app_assoc, run_stop by done.
    rewrite length_app. simpl. lia. }
  rewrite decide_True by lia.
  rewrite (backoff_first _ _ _ _ _ _ (length s) []).
  - by rewrite take_app_length.
  - lia.
  - rewrite drop_app_length. done.
  - intros j' Hj'. assert (j' = S (length s)) as -> by lia.
    rewrite (cons_middle Py.dquote s), app_assoc.
    rewrite drop_app_length' by (rewrite length_app; simpl; lia). done.
Qed.

Lemma keyword_match pos s :
  Py.newline ∉ s →
  Re.match_here keyword_re pos
    ("= " ++ Py.dquote :: s ++ [Py.dquote; Py.newline])
  = Some [s].
Proof.
  intros Hs.
  set (payload := [Re.lit Py.dquote; Re.Rep true Re.dot 0; Re.lit Py.dquote]).
  change (Re.match_here keyword_re pos
            ("= " ++ Py.dquote :: s ++ [Py.dquote; Py.newline]))
    with (if decide (0 ≤ 1)
          then Re.backoff (Re.match_here payload) false (S pos)
                 (" "%char :: Py.dquote :: s ++ [Py.dquote; Py.newline]) 0 1
          else None).
  rewrite decide_True by lia.
  rewrite (backoff_first _ _ _ _ _ _ 1 [s]); [done|lia| |intros; lia].
  by apply payload_match.
Qed.

Lemma search_refnames_line r :
  Py.newline ∉ r → Re.search keyword_re (refnames_line r) = Some [r].
Proof.
  intros Hr. unfold Re.search, refnames_line.
  change ("git_refnames = " ++ [Py.dquote] ++ r ++ [Py.dquote; Py.newline])
    with ("git_refnames " ++ ("= " ++ Py.dquote :: r ++ [Py.dquote; Py.newline])).
  unfold keyword_re at 1. rewrite search_from_skip by by repeat constructor.
  fold keyword_re.
  set (line := "= " ++ Py.dquote :: r ++ [Py.dquote; Py.newline]).
  assert (Re.match_here keyword_re (0 + length ("git_refnames " : str)) line
          = Some [r]) as Hm by by apply keyword_match.
  destruct line; cbn [Re.search_from]; by rewrite Hm.
Qed.

Lemma search_full_line f :
  Py.newline ∉ f → Re.search keyword_re (full_line f) = Some [f].
Proof.
  intros Hf. unfold Re.search, full_line.
  change ("git_full = " ++ [Py.dquote] ++ f ++ [Py.dquote; Py.newline])
    with ("git_full " ++ ("= " ++ Py.dquote :: f ++ [Py.dquote; Py.newline])).
  unfold keyword_re at 1. rewrite search_from_skip by by repeat constructor.
  fold keyword_re.
  set (line := "= " ++ Py.dquote :: f ++ [Py.dquote; Py.newline]).
  assert (Re.match_here keyword_re (0 + length ("git_full " : str)) line
          = Some [f]) as Hm by by apply keyword_match.
  destruct line; cbn [Re.search_from]; by rewrite Hm.
Qed.

Lemma strip_keyword_line (name s : str) :
  lclean Py.is_space name → name ≠ [] →
  Py.strip (name ++ [Py.dquote] ++ s ++ [Py.dquote; Py.newline])
  = name ++ [Py.dquote] ++ s ++ [Py.dquote].
Proof.
  intros Hname Hne.
  pose proof (strip_of_wrap Py.is_space []
                (name ++ [Py.dquote] ++ s ++ [Py.dquote]) [Py.newline]) as Hwrap.
  cbn [app] in Hwrap. unfold Py.strip.
  replace (name ++ [Py.dquote] ++ s ++ [Py.dquote; Py.newline])
    with ((name ++ [Py.dquote] ++ s ++ [Py.dquote]) ++ [Py.newline])
    by (by rewrite <- !app_assoc).
  apply Hwrap; [done|by repeat constructor| |].
  - by destruct name.
  - assert (name ++ Py.dquote :: s ++ [Py.dquote]
            = (name ++ Py.dquote :: s) ++ [Py.dquote]) as ->
      by by rewrite <- app_assoc.
    by rewrite rev_app_distr.
Qed.

Lemma scan_line_refnames keywords r :
  Py.newline ∉ r →
  scan_line keywords (refnames_line r) = <["refnames" := r]> keywords.
Proof.
  intros Hr. unfold scan_line.
  rewrite (search_refnames_line r Hr). unfold refnames_line.
  by rewrite (strip_keyword_line "git_refnames = " r).
Qed.

Lemma scan_line_full keywords f :
  Py.newline ∉ f →
  scan_line keywords (full_line f) = <["full" := f]> keywords.
Proof.
  intros Hf. unfold scan_line.
  rewrite (search_full_line f Hf). unfold full_line.
  by rewrite (strip_keyword_line "git_full = " f).
Qed.

Lemma fold_scan_other keywords ls :
  Forall other_line ls → fold_left scan_line ls keywords = keywords.
Proof.
  intros Hls. revert keywords.
  induction Hls as [|l ls Hl Hls IH]; intros keywords; [done|].
  cbn [fold_left]. by rewrite scan_line_other, IH.
Qed.

Lemma keyword_line_is_line (name s : str) :
  Py.newline ∉ name → Py.newline ∉ s →
  is_line (name ++ [Py.dquote] ++ s ++ [Py.dquote; Py.newline]).
Proof.
  intros Hname Hs. exists (name ++ [Py.dquote] ++ s ++ [Py.dquote]). split.
  - by rewrite <- !app_assoc.
  - rewrite !not_elem_of_app. split_and!; try done;
      by intros [=]%list_elem_of_singleton.
Qed.

End extractor.

Section extractor_results.
Implicit Types r f : str.
Implicit Types ls : list str.

Lemma other_line_is_line ls : Forall other_line ls → Forall is_line ls.
Proof. intros Hls. eapply Forall_impl; [exact Hls|]. by intros l [? _]. Qed.

Lemma get_keywords_of_lines e path ls :
  Forall is_line ls → open_read e path = Some (concat ls) →
  git_get_keywords e path = fold_left scan_line ls ∅.
Proof.
  intros Hls Hopen. unfold git_get_keywords.
  by rewrite Hopen, readlines_concat.
Qed.

Lemma dom_insert_sub (k : string) (v : str) (m : gmap string str)
    (S : gset string) :
  k ∈ S → dom m ⊆ S → dom (<[k:=v]> m) ⊆ S.
Proof.
  intros Hk Hm. rewrite dom_insert_L. apply union_least; [|done].
  by apply singleton_subseteq_l.
Qed.

Lemma scan_line_dom (keywords : gmap string str) (line : str) :
  dom keywords ⊆ ({[ "refnames"; "full" ]} : gset string) →
  dom (scan_line keywords line) ⊆ ({[ "refnames"; "full" ]} : gset string).
Proof.
  intros Hdom.
  assert ("refnames" ∈ ({[ "refnames"; "full" ]} : gset string)) as Hr
    by (apply elem_of_union; left; by apply elem_of_singleton).
  assert ("full" ∈ ({[ "refnames"; "full" ]} : gset string)) as Hf
    by (apply elem_of_union; right; by apply elem_of_singleton).
  unfold scan_line.
  repeat first [ destruct (Py.startswith _ _) | destruct (Re.search _ _) ];
    repeat first [ done | apply dom_insert_sub ].
Qed.

End extractor_results.

(** X22. The extractor reads both keywords back from a version file laid
    out as versioneer writes it: for a portable text with a
    [git_refnames = "r"] line and a later [git_full = "f"] line among
    lines that set neither, it returns the record of [r] and [f]; [r] and
    [f] may hold quotes. *)
Theorem get_keywords_round_trip (e : env) (path r f : str)
    (before between after : list str) :
  Forall other_line before → Forall other_line between →
  Forall other_line after →
  Py.newline ∉ r → Py.newline ∉ f →
  portable (concat (before ++ [refnames_line r] ++ between
                           ++ [full_line f] ++ after)) = true →
  open_read e path
  = Some (concat (before ++ [refnames_line r] ++ between
                         ++ [full_line f] ++ after)) →
  git_get_keywords e path = {[ "refnames" := r; "full" := f ]}.
Proof.
  intros Hbefore Hbetween Hafter Hr Hf _ Hopen.
  assert (Forall is_line
            (before ++ [refnames_line r] ++ between ++ [full_line f] ++ after))
    as Hlines.
  { rewrite !Forall_app, !Forall_singleton.
    split_and!; try by apply other_line_is_line.
    - by apply (keyword_line_is_line "git_refnames = ");
        [apply (bool_decide_unpack _)|].
    - by apply (keyword_line_is_line "git_full = ");
        [apply (bool_decide_unpack _)|]. }
  rewrite (get_keywords_of_lines _ _ _ Hlines Hopen).
  rewrite !fold_left_app. cbn [fold_left].
  rewrite (fold_scan_other _ before), scan_line_refnames by done.
  rewrite (fold_scan_other _ between), scan_line_full by done.
  rewrite (fold_scan_other _ after) by done.
  by rewrite insert_insert_ne.
Qed.

Lemma get_keywords_round_trip_witness :
  git_get_keywords version_file_env "khmer/_version.py"
  = {[ "refnames" := ("$Format:%d$" : str); "full" := ("$Format:%H$" : str) ]}.
Proof.
  apply (get_keywords_round_trip version_file_env "khmer/_version.py"
           "$Format:%d$" "$Format:%H$"
           [ "import re" ++ [Py.newline] ] []
           [ "tag_prefix = " ++ [Py.dquote] ++ "v" ++ [Py.dquote]
               ++ [Py.newline] ]).
  - constructor; [|done]. split; [|by vm_compute].
    exists ("import re" : str). split; [done|].
    apply (bool_decide_unpack _). by vm_compute.
  - done.
  - constructor; [|done]. split; [|by vm_compute].
    exists ("tag_prefix = " ++ [Py.dquote] ++ "v" ++ [Py.dquote]).
    split; [done|]. apply (bool_decide_unpack _). by vm_compute.
  - apply (bool_decide_unpack _). by vm_compute.
  - apply (bool_decide_unpack _). by vm_compute.
  - by vm_compute.
  - done.
Defined.

(** X23. Whatever the file holds, the record of the extractor has no
    other keys than [refnames] and [full]. *)
Theorem get_keywords_keys (e : env) (path : str) :
  dom (git_get_keywords e path) ⊆ ({[ "refnames"; "full" ]} : gset string).
Proof.
  unfold git_get_keywords. destruct (open_read e path) as [text|].
  - assert (dom (∅ : gmap string str)
            ⊆ ({[ "refnames"; "full" ]} : gset string)) as Hdom
      by (rewrite dom_empty_L; apply empty_subseteq).
    revert Hdom. generalize (∅ : gmap string str).
    induction (Py.readlines text) as [|line ls IH]; intros keywords Hdom;
      [done|].
    cbn [fold_left]. by apply IH, scan_line_dom.
  - rewrite dom_empty_L. apply empty_subseteq.
Qed.

(** ** The chain, end to end *)

Section chain_more.
Implicit Types cfg : config.
Implicit Types root out hash rest num commit : str.

Lemma vcs_tagged e tag_prefix root out hash rest num commit :
  path_exists e (path_join root ".git") = true →
  run_command e (gits_of (platform e)) describe_args root = Some out →
  run_command e (gits_of (platform e)) rev_parse_args root = Some hash →
  describe_shape (describe_body out) (tag_prefix ++ rest) num commit →
  ∃ distance,
    Py.int num = Some distance ∧
    git_versions_from_vcs e tag_prefix root
    = Return {[ "version" :=
                  PyStr (local_version rest distance commit
                           (Py.endswith out "-dirty"));
                "full" :=
                  PyStr (hash ++ dirty_suffix_of (Py.endswith out "-dirty")) ]}.
Proof.
  intros Hgit Hout Hhash Hshape.
  destruct (stripped_tagged _ _ _ _ (Py.endswith out "-dirty") _ Hshape)
    as (n & Hn & Hparse).
  exists n. split; [done|].
  rewrite vcs_unfold, Hgit, Hout, parse_body, Hparse, Hhash.
  cbn [negb mbind outcome_bind pyval_of].
  rewrite (run_command_stripped_out _ _ _ _ _ Hhash).
  unfold dirty_suffix_of. destruct (Py.endswith out "-dirty"); [done|].
  by rewrite app_nil_r.
Qed.

End chain_more.

(** X24. The order of the chain after unexpanded keywords: without the
    path of the module the default is returned at once; with it, a
    non-empty result of the VCS resolver is returned, whatever the name
    of the directory is. *)
Theorem get_versions_chain_order (cfg : config) (e : env)
    (default : gmap string pyval) :
  Py.startswith (Py.strip (git_refnames cfg)) "$Format" = true →
  (realpath_file e = None →
   get_versions cfg e default = Return (Some default)) ∧
  (∀ path d,
     realpath_file e = Some path →
     git_versions_from_vcs e (tag_prefix cfg)
       (root_of (versionfile_source cfg) path) = Return d →
     d ≠ ∅ →
     get_versions cfg e default = Return (Some d)).
Proof.
  intros Hkw.
  rewrite get_versions_after
    by (eapply keywords_unexpanded; [apply keywords_of_refnames|done]).
  unfold after_keywords. split.
  - by intros ->.
  - intros path d -> Hvcs Hne. cbn zeta. rewrite Hvcs.
    cbn [mbind outcome_bind]. unfold truthy. by rewrite bool_decide_false.
Qed.

Lemma get_versions_chain_order_witness :
  get_versions khmer_config git_only_env default_versions
  = Return (Some default_versions) ∧
  get_versions khmer_config dirty_tree_env default_versions
  = Return (Some {[ "version" := PyStr "1.2+14.g2414721.dirty";
                    "full" :=
                      PyStr "2414721b194453f058079d897d13c4e377f92dc6.dirty" ]}).
Proof.
  split.
  - apply (proj1 (get_versions_chain_order khmer_config git_only_env
                    default_versions eq_refl)). reflexivity.
  - apply (proj2 (get_versions_chain_order khmer_config dirty_tree_env
                    default_versions eq_refl)
             ("/src/khmer/khmer/_version.py" : str));
      [reflexivity|by vm_compute|].
    apply (bool_decide_unpack _). by vm_compute.
Defined.

(** X25. A live checkout, end to end: when the keywords are not
    expanded, the module lies at [root/versionfile_source], [.git] is
    there, the describe command prints a line with a tag of the project
    and the rev-parse command prints a hash, [get_versions] returns the
    version built from the tag and the hash, both marked when the tree is
    dirty. What the two commands print is portable text, and the number
    of commits is a numeral within every limit on its length. *)
Theorem get_versions_from_checkout (cfg : config) (e : env)
    (default : gmap string pyval) (root out hash rest num commit : str)
    (comps : list str) :
  Py.startswith (Py.strip (git_refnames cfg)) "$Format" = true →
  versionfile_source cfg = join "/" comps → path_components comps →
  open_path root →
  realpath_file e = Some (root ++ "/" ++ versionfile_source cfg) →
  path_exists e (path_join root ".git") = true →
  run_command e (gits_of (platform e)) describe_args root = Some out →
  run_command e (gits_of (platform e)) rev_parse_args root = Some hash →
  portable out = true → portable hash = true →
  describe_shape (describe_body out) (tag_prefix cfg ++ rest) num commit →
  length num ≤ str_digits_check_threshold →
  ∃ distance,
    Py.int num = Some distance ∧
    get_versions cfg e default
    = Return (Some {[ "version" :=
                        PyStr (local_version rest distance commit
                                 (Py.endswith out "-dirty"));
                      "full" :=
                        PyStr (hash ++ dirty_suffix_of
                                         (Py.endswith out "-dirty")) ]}).
Proof.
  intros Hkw Hsrc Hcomps Hroot Hpath Hgit Hout Hhash _ _ Hshape _.
  destruct (vcs_tagged _ _ _ _ _ _ _ _ Hgit Hout Hhash Hshape)
    as (n & Hn & Hvcs).
  exists n. split; [done|].
  rewrite get_versions_after
    by (eapply keywords_unexpanded; [apply keywords_of_refnames|done]).
  unfold after_keywords. rewrite Hpath. cbn zeta.
  rewrite Hsrc, root_of_versionfile_eq by done.
  rewrite Hvcs. cbn [mbind outcome_bind]. by rewrite dict_nonempty.
Qed.

Lemma get_versions_from_checkout_witness :
  ∃ distance,
    Py.int "14" = Some distance ∧
    get_versions khmer_config dirty_tree_env ∅
    = Return (Some {[ "version" :=
                        PyStr (local_version "1.2" distance "2414721" true);
                      "full" :=
                        PyStr "2414721b194453f058079d897d13c4e377f92dc6.dirty" ]}).
Proof.
  apply (get_versions_from_checkout khmer_config dirty_tree_env ∅
           "/src/khmer" "v1.2-14-g2414721-dirty"
           "2414721b194453f058079d897d13c4e377f92dc6" "1.2" "14" "2414721"
           [("khmer" : str); ("_version.py" : str)]);
    try first [done | by vm_compute].
  - split; [done|]. repeat constructor; try done;
      apply (bool_decide_unpack _); by vm_compute.
  - unfold describe_shape. split_and!; try done. by left.
  - unfold str_digits_check_threshold. simpl. lia.
Defined.
